(** * SciPAn: the weekly arXiv digest script [ai_suggest.py]

    A shallow embedding of the three functions of the script
    ([search_arxiv], [summarize_text], [generate_digest]) together with
    the pieces of the Python runtime they lean on: [str.strip],
    [str.join], [re.split] for the one pattern the script uses,
    [re.sub] for the tag pattern, [dict.get], subscripting, truthiness
    and [str()] on decoded JSON.

    Python strings are sequences of Unicode code points; they are
    modelled as lists of [N].  Everything the script obtains from the
    outside (HTTP replies, the parsed feed, environment variables, the
    clock, library tables) is a field of the record [runtime], and every
    function of the script takes the runtime as its first argument.
    Code that can raise returns a [result]; code that also posts to the
    completion API runs in [io], which threads the number of requests
    made so far. *)

From Stdlib Require Import ZArith NArith Ascii String DecimalString.
From Stdlib Require Import Floats.SpecFloat.
From stdpp Require Import base option list gmap strings.

Open Scope N_scope.

(** ** Strings *)

Definition char := N.
Definition str := list char.

Definition chr (a : ascii) : char := N_of_ascii a.

(** An ASCII literal as a Python string. *)
Definition lit (s : string) : str := chr <$> list_ascii_of_string s.

(** [Py_UNICODE_ISSPACE]: the characters [str.strip()] removes. *)
Definition isspace (c : char) : bool :=
  ((9 <=? c) && (c <=? 13)) || ((28 <=? c) && (c <=? 32))
  || (c =? 133) || (c =? 160) || (c =? 5760)
  || ((8192 <=? c) && (c <=? 8202))
  || (c =? 8232) || (c =? 8233) || (c =? 8239) || (c =? 8287)
  || (c =? 12288).

Fixpoint drop_while {A} (f : A -> bool) (l : list A) : list A :=
  match l with
  | [] => []
  | x :: l' => if f x then drop_while f l' else l
  end.

Fixpoint take_while {A} (f : A -> bool) (l : list A) : list A :=
  match l with
  | [] => []
  | x :: l' => if f x then x :: take_while f l' else []
  end.

Definition lstrip (s : str) : str := drop_while isspace s.
Definition rstrip (s : str) : str := reverse (drop_while isspace (reverse s)).

(** [s.strip()] *)
Definition strip (s : str) : str := rstrip (lstrip s).

(** [sep.join(parts)] *)
Fixpoint join (sep : str) (parts : list str) : str :=
  match parts with
  | [] => []
  | [p] => p
  | p :: rest => p ++ sep ++ join sep rest
  end.

(** A string with a character that [strip] keeps. *)
Definition has_nonspace (s : str) : bool := existsb (fun c => negb (isspace c)) s.

(** Decimal text of an integer, as [str(i)] and [f"{i}"] give it. *)
Definition str_of_Z (z : Z) : str := lit (NilZero.string_of_int (Z.to_int z)).

(** ** The sentence splitter: [re.split(r"(?<=[.!?])\\s+", text)]

    The pattern is written in a raw string, so the regular expression
    engine receives the eleven characters [(?<=[.!?])\\s+] followed by
    nothing else: a look-behind for one of [. ! ?], then an escaped (hence
    literal) backslash, then the letter [s] one or more times. *)

Definition backslash : char := 92.
Definition letter_s : char := 115.

(** The look-behind [(?<=[.!?])] on the character before the position. *)
Definition lookbehind_punct (prev : option char) : bool :=
  match prev with
  | Some c => (c =? 46) || (c =? 33) || (c =? 63)
  | None => false
  end.

(** Length of the match of the pattern at the head of [t], when there is
    one; [+] is greedy. *)
Definition sep_len (prev : option char) (t : str) : option nat :=
  match t with
  | b :: s :: rest =>
      if lookbehind_punct prev && (b =? backslash) && (s =? letter_s)
      then Some (2 + length (take_while (N.eqb letter_s) rest))%nat
      else None
  | _ => None
  end.

(** The scanning loop of [re.split]: [skip] characters of the current
    match are still to be consumed, [prev] is the character before the
    position and [cur] the piece being collected, reversed. *)
Fixpoint split_go (skip : nat) (prev : option char) (cur : str) (t : str)
  : list str :=
  match t with
  | [] => [reverse cur]
  | c :: t' =>
      match skip with
      | S k => split_go k (Some c) cur t'
      | O =>
          match sep_len prev t with
          | Some (S k) => reverse cur :: split_go k (Some c) [] t'
          | _ => split_go 0 (Some c) (c :: cur) t'
          end
      end
  end.

Definition re_split_sentences (text : str) : list str := split_go 0 None [] text.

(** [" ".join(re.split(r"(?<=[.!?])\\s+", text)[:3]).strip()], the
    expression of lines 62 and 86. *)
Definition extractive_summary (text : str) : str :=
  strip (join (lit " ") (take 3 (re_split_sentences text))).

(** ** The tag pattern: [re.sub(r"<[^>]+>", "", summary)]

    At a [<] the pattern matches when the next [>] lies at least two
    characters further on; the match is removed and the scan resumes
    after it.  [skip] again counts the characters of a match still to
    be consumed. *)

Definition lt_sign : char := 60.
Definition gt_sign : char := 62.

Definition tag_len (t : str) : option nat :=
  match t with
  | o :: rest =>
      if o =? lt_sign then
        let inner := take_while (fun c => negb (c =? gt_sign)) rest in
        match inner, drop_while (fun c => negb (c =? gt_sign)) rest with
        | _ :: _, _ :: _ => Some (2 + length inner)%nat
        | _, _ => None
        end
      else None
  | [] => None
  end.

Fixpoint strip_tags_go (skip : nat) (t : str) : str :=
  match t with
  | [] => []
  | c :: t' =>
      match skip with
      | S k => strip_tags_go k t'
      | O =>
          match tag_len t with
          | Some (S k) => strip_tags_go k t'
          | _ => c :: strip_tags_go 0 t'
          end
      end
  end.

Definition strip_tags (s : str) : str := strip_tags_go 0 s.

(** ** Exceptions

    Every one of these derives from [Exception], so an [except Exception]
    clause catches all of them. *)

Inductive exn :=
  | AttributeError | IndexError | KeyError | TypeError
  | ConnectionError | ReadTimeout | HTTPError | JSONDecodeError
  | UnicodeEncodeError.

Inductive result (A : Type) :=
  | Ok (a : A)
  | Raise (e : exn).
Arguments Ok {A} a.
Arguments Raise {A} e.

(** Sequencing: the first exception raised ends the block. *)
#[global] Instance result_ret : MRet result := fun A a => Ok a.
#[global] Instance result_bind : MBind result := fun A B k r =>
  match r with
  | Ok a => k a
  | Raise e => Raise e
  end.

(** ** Decoded JSON, as [resp.json()] hands it to the script

    [None], [bool], [int], [float], [str], [list] and [dict]; a [dict]
    keeps its items in insertion order. *)

#[warnings="-register-all"] Inductive json :=
  | JNull
  | JBool (b : bool)
  | JInt (z : Z)
  | JFloat (f : spec_float)
  | JStr (s : str)
  | JList (items : list json)
  | JDict (items : list (str * json)).

(** Python truth value, as tested by [or], [not] and [if]. *)
Definition truthy (v : json) : bool :=
  match v with
  | JNull => false
  | JBool b => b
  | JInt z => negb (z =? 0)%Z
  | JFloat (S754_zero _) => false
  | JFloat _ => true
  | JStr s => match s with [] => false | _ => true end
  | JList l => match l with [] => false | _ => true end
  | JDict l => match l with [] => false | _ => true end
  end.

(** [a or b] *)
Definition py_or (a b : json) : json := if truthy a then a else b.

Fixpoint assoc (k : str) (items : list (str * json)) : option json :=
  match items with
  | [] => None
  | (k', v) :: rest => if decide (k = k') then Some v else assoc k rest
  end.

(** [d.get(key, default)]; only a [dict] has the method. *)
Definition py_get (d : json) (key : str) (dflt : json) : result json :=
  match d with
  | JDict items => Ok (default dflt (assoc key items))
  | _ => Raise AttributeError
  end.

(** [v[0]] *)
Definition py_index0 (v : json) : result json :=
  match v with
  | JList (x :: _) => Ok x
  | JList [] => Raise IndexError
  | JStr (c :: _) => Ok (JStr [c])
  | JStr [] => Raise IndexError
  | JDict _ => Raise KeyError
  | _ => Raise TypeError
  end.

(** [content.strip()]; only a [str] has the method. *)
Definition py_strip (v : json) : result str :=
  match v with
  | JStr s => Ok (strip s)
  | _ => Raise AttributeError
  end.

(** [isinstance(v, dict)] *)
Definition is_dict (v : json) : bool :=
  match v with JDict _ => true | _ => false end.

(** *** [repr] and [str] on decoded JSON *)

Definition hex_digit (n : N) : char :=
  if n <? 10 then 48 + n else 87 + n.

(** The [k] low hexadecimal digits of [n], most significant first. *)
Fixpoint hex_fixed (k : nat) (n : N) : str :=
  match k with
  | O => []
  | S k' => hex_fixed k' (n / 16) ++ [hex_digit (n mod 16)]
  end.

Definition squote : char := 39.
Definition dquote : char := 34.

Section Repr.
(** [Py_UNICODE_ISPRINTABLE] on non-ASCII characters (a table of the
    Unicode database) and [float.__repr__]. *)
Variable isprintable : char -> bool.
Variable float_repr : spec_float -> str.

Definition repr_char (quote : char) (c : char) : str :=
  if (c =? quote) || (c =? backslash) then [backslash; c]
  else if c =? 9 then lit "\t"
  else if c =? 10 then lit "\n"
  else if c =? 13 then lit "\r"
  else if (c <? 32) || (c =? 127) then lit "\x" ++ hex_fixed 2 c
  else if c <? 127 then [c]
  else if isprintable c then [c]
  else if c <=? 255 then lit "\x" ++ hex_fixed 2 c
  else if c <=? 65535 then lit "\u" ++ hex_fixed 4 c
  else lit "\U" ++ hex_fixed 8 c.

(** [repr] of a [str]: double quotes only when the text has a single
    quote and no double quote. *)
Definition repr_str (s : str) : str :=
  let quote :=
    if existsb (N.eqb squote) s && negb (existsb (N.eqb dquote) s)
    then dquote else squote in
  [quote] ++ concat (repr_char quote <$> s) ++ [quote].

Fixpoint py_repr (v : json) : str :=
  match v with
  | JNull => lit "None"
  | JBool true => lit "True"
  | JBool false => lit "False"
  | JInt z => str_of_Z z
  | JFloat f => float_repr f
  | JStr s => repr_str s
  | JList items =>
      lit "[" ++ join (lit ", ") (map py_repr items) ++ lit "]"
  | JDict items =>
      lit "{"
      ++ join (lit ", ")
           (map (fun kv => repr_str (fst kv) ++ lit ": " ++ py_repr (snd kv)) items)
      ++ lit "}"
  end.

(** [str(v)] *)
Definition py_str (v : json) : str :=
  match v with
  | JStr s => s
  | _ => py_repr v
  end.
End Repr.

(** ** What the script receives from the outside *)

(** A [requests.Response], as far as the script looks at it: the outcome
    of [raise_for_status()], the [text] attribute and the outcome of
    [json()]. *)
Record response := {
  raise_for_status : result unit;
  text : str;
  json_body : result json;
}.

(** One author of a feed entry; [a.name] raises [AttributeError] when the
    feed gave the author no name. *)
Record author := { author_name : option str }.

(** One entry of the parsed feed; a field the feed did not carry is
    [None], which is when [getattr(entry, field, default)] yields the
    default. *)
Record entry := {
  entry_title : option str;
  entry_summary : option str;
  entry_link : option str;
  entry_authors : option (list author);
  entry_published : option str;
  entry_id : option str;
}.

Record date := { year : Z; month : Z; day : Z }.

(** Libraries, network, environment variables and clock of one run.
    [requests_post n _ _ _ _] is the outcome of the [n]-th POST of the
    run. *)
Record runtime := {
  quote_plus : str -> str;
  html_unescape : str -> str;
  feedparser_parse : str -> list entry;
  isprintable : char -> bool;
  float_repr : spec_float -> str;
  requests_get : str -> list (str * str) -> Z -> result response;
  requests_post : nat -> str -> json -> list (str * str) -> Z -> result response;
  MODEL : str;
  OPENROUTER_URL : str;
  OPENROUTER_KEY : option str;
  USER_AGENT : str;
  date_today : date;
}.

(** ** Configuration constants *)

Definition TOPIC : str := lit "microwave plasma CVD diamond growth".
Definition MAX_RESULTS : Z := 10.

(** A paper is a Python [dict] from field names to text. *)
Abbreviation paper := (gmap string str).

Definition schema : list string :=
  ["title"; "summary"; "link"; "authors"; "published"; "id"]%string.

(** A PaperRecord carries every field of the schema. *)
Definition is_paper_record (p : paper) : Prop :=
  Forall (fun k => is_Some (p !! k)) schema.

(** [paper[key]] *)
Definition py_getitem (p : paper) (key : string) : result str :=
  match p !! key with
  | Some v => Ok v
  | None => Raise KeyError
  end.

(** [s.zfill(width)] on the text of a non-negative number. *)
Definition zfill (width : nat) (s : str) : str :=
  replicate (width - length s) 48 ++ s.

(** [d.isoformat()]: [YYYY-MM-DD]. *)
Definition isoformat (d : date) : str :=
  zfill 4 (str_of_Z (year d)) ++ lit "-" ++ zfill 2 (str_of_Z (month d))
  ++ lit "-" ++ zfill 2 (str_of_Z (day d)).

(** 0.5 *)
Definition one_half : spec_float := S754_finite false 1 (-1).

(** ** Computations that talk to the network

    The state is the number of POST requests made so far in the run. *)

Definition io (A : Type) : Type := nat -> result A * nat.

#[global] Instance io_ret : MRet io := fun A a w => (Ok a, w).
#[global] Instance io_bind : MBind io := fun A B k m w =>
  match m w with
  | (Ok a, w') => k a w'
  | (Raise e, w') => (Raise e, w')
  end.

Definition lift {A} (r : result A) : io A := fun w => (r, w).

(** [try: body  except Exception: handler], both in [io]. *)
Definition io_try {A} (body handler : io A) : io A := fun w =>
  match body w with
  | (Ok a, w') => (Ok a, w')
  | (Raise _, w') => handler w'
  end.

(** [getattr(obj, field, default)] on a field that may be missing. *)
Definition getattr {A} (field : option A) (dflt : A) : A := default dflt field.

(** [a.name] *)
Definition dot_name (a : author) : result str :=
  match author_name a with
  | Some n => Ok n
  | None => Raise AttributeError
  end.

(** [a.name for a in authors], consumed in order by [join]. *)
Fixpoint names_of (authors : list author) : result (list str) :=
  match authors with
  | [] => Ok []
  | a :: rest => n ← dot_name a; ns ← names_of rest; mret (n :: ns)
  end.

Definition nl : str := [10].
Definition OUTPUT_DIR : str := lit "digests".

(** UTF-8 can encode the text: no code point of it is a surrogate
    (U+D800 to U+DFFF). *)
Definition encodable (s : str) : bool :=
  forallb (fun c => negb ((55296 <=? c) && (c <=? 57343))) s.

(** ** The script *)

Section Script.
Context (rt : runtime).

(** *** [search_arxiv], lines 24 to 51 *)

(** Body of the loop over [feed.entries], lines 39 to 50. *)
Definition make_paper (e : entry) : result paper :=
  let summary := strip (html_unescape rt (getattr (entry_summary e) [])) in
  let summary := strip_tags summary in
  names ← names_of (getattr (entry_authors e) []);
  let authors := join (lit ", ") names in
  mret (list_to_map
          [("title", strip (getattr (entry_title e) []));
           ("summary", summary);
           ("link", getattr (entry_link e) []);
           ("authors", authors);
           ("published", getattr (entry_published e) []);
           ("id", getattr (entry_id e) [])]%string).

Fixpoint search_loop (entries : list entry) (papers : list paper)
  : result (list paper) :=
  match entries with
  | [] => Ok papers
  | e :: rest => p ← make_paper e; search_loop rest (papers ++ [p])
  end.

(** Line 26, [quote_plus(query)]: the text is first encoded as UTF-8,
    strictly, which raises on a lone surrogate; the percent-encoding of
    a text that can be encoded is the library's. *)
Definition py_quote_plus (query : str) : result str :=
  if encodable query then Ok (quote_plus rt query)
  else Raise UnicodeEncodeError.

(** Lines 27 to 30: the request for the quoted query [q] and its
    outcome. *)
Definition arxiv_get (q : str) (max_results : Z) : result response :=
  let url :=
    lit "https://export.arxiv.org/api/query?search_query=all:" ++ q
    ++ lit "&sortBy=submittedDate&sortOrder=descending&max_results="
    ++ str_of_Z max_results in
  let headers := [(lit "User-Agent", USER_AGENT rt)] in
  requests_get rt url headers 15.

(** Line 26 is outside the [try]: what it raises reaches the caller. *)
Definition search_arxiv (query : str) (max_results : Z) : result (list paper) :=
  q ← py_quote_plus query;
  match r ← arxiv_get q max_results; raise_for_status r;; mret r with
  | Raise _ => Ok []
  | Ok r => search_loop (feedparser_parse rt (text r)) []
  end.

(** The outcome of the GET of line 30 for the query, when the script
    gets that far: [None] when line 26 raised and no request was made. *)
Definition arxiv_reply (query : str) (max_results : Z)
  : option (result response) :=
  match py_quote_plus query with
  | Ok q => Some (arxiv_get q max_results)
  | Raise _ => None
  end.

(** *** [summarize_text], lines 53 to 86 *)

(** [not OPENROUTER_KEY] is false: the variable is set and not empty. *)
Definition key_configured : bool :=
  match OPENROUTER_KEY rt with
  | Some (_ :: _) => true
  | _ => false
  end.

Definition prompt_of (text : str) : str :=
  lit "Summarize this research abstract for a weekly digest (3" ++ [8211]
  ++ lit "4 sentences, technical tone):" ++ nl ++ nl ++ text.

(** Lines 78 to 81: [content] after the test on the shape of the
    choice; [None] when the choice is not an object. *)
Definition choice_content (choice : json) : result json :=
  if is_dict choice then
    m ← py_get choice (lit "message") JNull;
    let msg := py_or m (JDict []) in
    c ← py_get msg (lit "content") JNull;
    if truthy c then mret c else py_get choice (lit "text") JNull
  else mret JNull.

(** Lines 76 to 83: the value of [content] just before [content.strip()]. *)
Definition select_content (data : json) : result json :=
  choices ← py_get data (lit "choices") (JList []);
  choice ← py_index0 choices;
  content ← choice_content choice;
  mret (if truthy content then content
        else JStr (py_str (isprintable rt) (float_repr rt) choice)).

(** Lines 72 to 84, the body of the [try], given the outcome of the
    POST. *)
Definition read_reply (reply : result response) : result str :=
  resp ← reply;
  raise_for_status resp;;
  data ← json_body resp;
  content ← select_content data;
  py_strip content.

(** Lines 64 to 72: the request and its outcome, as the [w]-th POST of
    the run. *)
Definition post_reply (text : str) (w : nat) : result response :=
  let prompt := prompt_of text in
  let headers :=
    [(lit "Authorization",
      lit "Bearer " ++ default (lit "None") (OPENROUTER_KEY rt));
     (lit "Content-Type", lit "application/json")] in
  let body :=
    JDict [(lit "model", JStr (MODEL rt));
           (lit "messages",
            JList [JDict [(lit "role", JStr (lit "user"));
                          (lit "content", JStr prompt)]]);
           (lit "temperature", JFloat one_half);
           (lit "max_tokens", JInt 300)] in
  requests_post rt w (OPENROUTER_URL rt) body headers 30.

Definition summarize_text (text : str) : io str :=
  if negb key_configured then mret (extractive_summary text)
  else
    io_try
      (fun w => (read_reply (post_reply text w), S w))
      (mret (extractive_summary text)).

(** *** [generate_digest], lines 88 to 98 *)

(** The loop over [enumerate(papers, 1)]; [i] is the ordinal of the head
    of [papers] and [lines] the list built so far. *)
Fixpoint digest_loop (i : Z) (papers : list paper) (lines : list str)
  : io (list str) :=
  match papers with
  | [] => mret lines
  | p :: rest =>
      abs_text ← lift (py_getitem p "summary");
      summary ← summarize_text abs_text;
      title ← lift (py_getitem p "title");
      let lines := lines ++ [lit "### " ++ str_of_Z i ++ lit ". " ++ title] in
      authors ← lift (py_getitem p "authors");
      let lines := lines ++ [lit "**Authors:** " ++ authors] in
      let lines := lines ++ [lit "**Summary:** " ++ summary] in
      link ← lift (py_getitem p "link");
      let lines := lines ++ [lit "[Read on arXiv](" ++ link ++ lit ")" ++ nl] in
      digest_loop (i + 1) rest lines
  end.

(** The title line, line 91. *)
Definition title_line : str :=
  lit "# Weekly Digest: " ++ TOPIC ++ lit " ("
  ++ isoformat (date_today rt) ++ lit ")" ++ nl.

Definition generate_digest (papers : list paper) : io str :=
  lines ← digest_loop 1 papers [title_line];
  mret (join nl lines).

(** *** [main], lines 100 to 107: the file name and the text written. *)
Definition main : io (str * str) :=
  papers ← lift (search_arxiv TOPIC MAX_RESULTS);
  digest_md ← generate_digest papers;
  let filename :=
    OUTPUT_DIR ++ lit "/digest_" ++ isoformat (date_today rt) ++ lit ".md" in
  mret (filename, digest_md).

(** *** Vocabulary of the statements below *)

(** The POST of line 72 fails: [requests.post] raises (network error,
    timeout), [raise_for_status] raises (error status) or [json()]
    raises (body that is not JSON). *)
Definition request_failed (reply : result response) : bool :=
  match reply with
  | Raise _ => true
  | Ok resp =>
      match raise_for_status resp, json_body resp with
      | Ok _, Ok _ => false
      | _, _ => true
      end
  end.

(** The GET of line 30 was made and failed: [requests.get] or
    [raise_for_status] raised. *)
Definition fetch_failed (reply : option (result response)) : bool :=
  match reply with
  | Some (Raise _) => true
  | Some (Ok resp) =>
      match raise_for_status resp with
      | Ok _ => false
      | Raise _ => true
      end
  | None => false
  end.

(** The first choice carries no usable message content: no message, a
    falsy one, or a message object whose content is missing or falsy. *)
Definition lacks_content (items : list (str * json)) : bool :=
  match assoc (lit "message") items with
  | None => true
  | Some (JDict ms) =>
      match assoc (lit "content") ms with
      | None => true
      | Some c => negb (truthy c)
      end
  | Some m => negb (truthy m)
  end.

(** The first choice carries no usable text field. *)
Definition lacks_text (items : list (str * json)) : bool :=
  match assoc (lit "text") items with
  | None => true
  | Some t => negb (truthy t)
  end.

(** The text the summarizer is meant to pick from the first choice:
    the content of the message object, else the text field, else the
    stringification of the choice. *)
Inductive selected (choice : json) : str -> Prop :=
  | sel_content items ms c :
      choice = JDict items ->
      assoc (lit "message") items = Some (JDict ms) ->
      assoc (lit "content") ms = Some (JStr c) ->
      c <> [] ->
      selected choice c
  | sel_text items t :
      choice = JDict items ->
      lacks_content items = true ->
      assoc (lit "text") items = Some (JStr t) ->
      t <> [] ->
      selected choice t
  | sel_stringified items :
      choice = JDict items ->
      lacks_content items = true ->
      lacks_text items = true ->
      selected choice (py_str (isprintable rt) (float_repr rt) choice)
  | sel_not_object :
      is_dict choice = false ->
      selected choice (py_str (isprintable rt) (float_repr rt) choice).

(** The entries of the feed the server sent for the query; none when
    the fetch failed or was not made. *)
Definition fetched_entries (query : str) (max_results : Z) : list entry :=
  match arxiv_reply query max_results with
  | Some (Ok resp) =>
      match raise_for_status resp with
      | Ok _ => feedparser_parse rt (text resp)
      | Raise _ => []
      end
  | _ => []
  end.

(** [p] is the record of entry [e]: exactly the six fields of the
    schema, each with the text of the entry or of the empty default. *)
Definition record_of (e : entry) (p : paper) : Prop :=
  dom p = list_to_set schema
  /\ p !! "title"%string = Some (strip (getattr (entry_title e) []))
  /\ p !! "summary"%string
     = Some (strip_tags (strip (html_unescape rt (getattr (entry_summary e) []))))
  /\ p !! "link"%string = Some (getattr (entry_link e) [])
  /\ p !! "authors"%string
     = Some (join (lit ", ") (omap author_name (getattr (entry_authors e) [])))
  /\ p !! "published"%string = Some (getattr (entry_published e) [])
  /\ p !! "id"%string = Some (getattr (entry_id e) []).

(** Every author of the entry has a name. *)
Definition authors_named (e : entry) : bool :=
  forallb (fun a => bool_decide (is_Some (author_name a)))
          (getattr (entry_authors e) []).

(** One POST per summary when a key is configured, none otherwise. *)
Definition posts_per_summary : nat := if key_configured then 1 else 0.

(** Paper [j] of the input owns lines [4 j] to [4 j + 3] of [lines], and
    its summary is the one [summarize_text] gives at the [j]-th call. *)
Definition section_at (i : Z) (w : nat) (lines : list str)
    (j : nat) (p : paper) : Prop :=
  exists title abs_text link authors summary : str,
    p !! "title"%string = Some title /\ p !! "summary"%string = Some abs_text
    /\ p !! "link"%string = Some link /\ p !! "authors"%string = Some authors
    /\ fst (summarize_text abs_text (w + posts_per_summary * j)%nat)
       = Ok summary
    /\ lines !! (4 * j)%nat
       = Some (lit "### " ++ str_of_Z (i + Z.of_nat j) ++ lit ". " ++ title)
    /\ lines !! (4 * j + 1)%nat = Some (lit "**Authors:** " ++ authors)
    /\ lines !! (4 * j + 2)%nat = Some (lit "**Summary:** " ++ summary)
    /\ lines !! (4 * j + 3)%nat
       = Some (lit "[Read on arXiv](" ++ link ++ lit ")" ++ nl).

End Script.

(** Neither end of the string is white space. *)
Definition edge_clean (s : str) : bool :=
  match head s with Some c => negb (isspace c) | None => true end
  && match last s with Some c => negb (isspace c) | None => true end.

(** ** Sample runs, used to evaluate the script on concrete inputs *)

Definition sample_runtime (key : option str) (get : result response)
    (post : nat -> result response) (feed : list entry) : runtime :=
  {| quote_plus := id;
     html_unescape := id;
     feedparser_parse := fun _ => feed;
     isprintable := fun _ => true;
     float_repr := fun _ => lit "0.5";
     requests_get := fun _ _ _ => get;
     requests_post := fun n _ _ _ _ => post n;
     MODEL := lit "mistralai/mistral-7b-instruct";
     OPENROUTER_URL := lit "https://api.openrouter.ai/v1/chat/completions";
     OPENROUTER_KEY := key;
     USER_AGENT := lit "SciPAn/1.0 (mailto:you@example.com)";
     date_today := {| year := 2024; month := 5; day := 6 |} |}.

(** A reply with status 200 whose body decodes to [data]. *)
Definition ok_reply (data : json) : result response :=
  Ok {| raise_for_status := Ok (); text := []; json_body := Ok data |}.

(** [{"choices": [choice]}] *)
Definition one_choice (choice : json) : json :=
  JDict [(lit "choices", JList [choice])].

(** A reply with status 200 and no body worth reading. *)
Definition plain_reply : result response :=
  Ok {| raise_for_status := Ok (); text := []; json_body := Raise JSONDecodeError |}.

(** A feed entry that carries only a title. *)
Definition titled_entry (title : string) : entry :=
  {| entry_title := Some (lit title); entry_summary := None;
     entry_link := None; entry_authors := None;
     entry_published := None; entry_id := None |}.

(** A complete entry. *)
Definition full_entry : entry :=
  {| entry_title := Some (lit " Diamond growth ");
     entry_summary := Some (lit "We grow <b>diamond</b>. It works.");
     entry_link := Some (lit "http://arxiv.org/abs/2405.00001v1");
     entry_authors := Some [ {| author_name := Some (lit "A. Author") |};
                             {| author_name := Some (lit "B. Author") |} ];
     entry_published := Some (lit "2024-05-01T00:00:00Z");
     entry_id := Some (lit "http://arxiv.org/abs/2405.00001v1") |}.

(** A PaperRecord. *)
Definition sample_paper (title abs_text : string) : paper :=
  list_to_map
    [("title", lit title); ("summary", lit abs_text);
     ("link", lit "http://arxiv.org/abs/1"); ("authors", lit "A, B");
     ("published", lit "2024"); ("id", lit "1")]%string.

(** Runs with no credential, with a credential and a network that times
    out, with a credential and a fixed reply, with a given feed, and with
    no network at all. *)
Definition demo_key : option str := Some (lit "sk-demo").
Definition no_key_run : runtime :=
  sample_runtime None plain_reply (fun _ => Raise ReadTimeout) [].
Definition timeout_run : runtime :=
  sample_runtime demo_key plain_reply (fun _ => Raise ReadTimeout) [].
Definition reply_run (data : json) : runtime :=
  sample_runtime demo_key plain_reply (fun _ => ok_reply data) [].
Definition feed_run (feed : list entry) : runtime :=
  sample_runtime None plain_reply (fun _ => Raise ReadTimeout) feed.
Definition offline_run : runtime :=
  sample_runtime None (Raise ConnectionError) (fun _ => Raise ReadTimeout) [].

(** An entry whose only author has an e-mail address and no name. *)
Definition nameless_entry : entry :=
  {| entry_title := Some (lit "T"); entry_summary := None;
     entry_link := None; entry_authors := Some [ {| author_name := None |} ];
     entry_published := None; entry_id := None |}.

(** [{"message": {"content": content}}] *)
Definition message_with (content : string) : json :=
  JDict [(lit "message", JDict [(lit "content", JStr (lit content))])].

(** [{"message": {"content": content}, "text": t}] *)
Definition message_and_text (content t : string) : json :=
  JDict [(lit "message", JDict [(lit "content", JStr (lit content))]);
         (lit "text", JStr (lit t))].

(** ** The whole run, with its effects on the host

    [main] of lines 100 to 107 creates the output directory, fetches,
    builds the digest, writes it to a file named after the date read at
    that moment and prints the path.  The calls to the host
    ([os.makedirs], [open] with [write], [print]) are recorded as
    actions; their outcome, and the second reading of the clock, are
    given by the host. *)

Inductive action :=
  | MakeDirs (path : str)
  | WriteFile (path content : str)
  | Print (line : str).

(** [succeeds a] tells whether the call [a] returns; otherwise it raises
    (an [OSError], say). *)
Record host := {
  succeeds : action -> bool;
  date_at_write : date;
}.

(** How the run ends: normally, with an exception of the script's own
    calls, or with the exception of a call to the host. *)
Inductive outcome :=
  | Done
  | Failed (e : exn)
  | HostFailed (a : action).

(** Outcome of the run, number of POST requests made, and the actions
    that completed, in order. *)
Definition main_run (rt : runtime) (h : host) (w : nat)
  : outcome * nat * list action :=
  if negb (succeeds h (MakeDirs OUTPUT_DIR))
  then (HostFailed (MakeDirs OUTPUT_DIR), w, [])
  else
    match search_arxiv rt TOPIC MAX_RESULTS with
    | Raise e => (Failed e, w, [MakeDirs OUTPUT_DIR])
    | Ok papers =>
        match generate_digest rt papers w with
        | (Raise e, w') => (Failed e, w', [MakeDirs OUTPUT_DIR])
        | (Ok digest_md, w') =>
            let filename :=
              OUTPUT_DIR ++ lit "/digest_" ++ isoformat (date_at_write h)
              ++ lit ".md" in
            if negb (succeeds h (WriteFile filename digest_md))
            then (HostFailed (WriteFile filename digest_md), w',
                  [MakeDirs OUTPUT_DIR])
            else
              let line := lit "Digest saved to " ++ filename in
              if negb (succeeds h (Print line))
              then (HostFailed (Print line), w',
                    [MakeDirs OUTPUT_DIR; WriteFile filename digest_md])
              else (Done, w',
                    [MakeDirs OUTPUT_DIR; WriteFile filename digest_md;
                     Print line])
        end
    end.

(** ** Further vocabulary *)

(** The field [k] of a paper, empty when the paper has none. *)
Definition paper_field (p : paper) (k : string) : str :=
  default ([] : str) (p !! k).

(** The text that paper [j] of the input (counted from 0) owns in the
    digest of a run that starts after [w] requests: a newline, the
    heading with ordinal [j + 1] and the title, the authors line, the
    summary line with what [summarize_text] gives for the paper at its
    turn, and the link line, which ends with two newlines of which the
    next section, if any, supplies the second. *)
Definition section_text (rt : runtime) (w : nat) (j : nat) (p : paper) : str :=
  let summary :=
    match fst (summarize_text rt (paper_field p "summary")
                 (w + posts_per_summary rt * j)%nat) with
    | Ok s => s
    | Raise _ => []
    end in
  nl ++ lit "### " ++ str_of_Z (Z.of_nat j + 1) ++ lit ". "
     ++ paper_field p "title" ++ nl
  ++ lit "**Authors:** " ++ paper_field p "authors" ++ nl
  ++ lit "**Summary:** " ++ summary ++ nl
  ++ lit "[Read on arXiv](" ++ paper_field p "link" ++ lit ")" ++ nl.

(** A date as [datetime.date] allows it. *)
Definition valid_date (d : date) : Prop :=
  (1 <= year d <= 9999)%Z /\ (1 <= month d <= 12)%Z /\ (1 <= day d <= 31)%Z.

(** The character of a decimal digit. *)
Definition digit_char (n : Z) : char := 48 + Z.to_N n.

(** The ten characters [YYYY-MM-DD] of a date, digit by digit. *)
Definition date_text (d : date) : str :=
  [digit_char (year d / 1000); digit_char (year d / 100 mod 10);
   digit_char (year d / 10 mod 10); digit_char (year d mod 10)]
  ++ lit "-" ++ [digit_char (month d / 10); digit_char (month d mod 10)]
  ++ lit "-" ++ [digit_char (day d / 10); digit_char (day d mod 10)].

(** Equality of texts, as a test. *)
Fixpoint str_eqb (s t : str) : bool :=
  match s, t with
  | [], [] => true
  | c :: s', d :: t' => (c =? d) && str_eqb s' t'
  | _, _ => false
  end.

(** Some position of the text starts a match of the tag pattern. *)
Fixpoint has_tag (s : str) : bool :=
  match s with
  | [] => false
  | _ :: s' => (match tag_len s with Some _ => true | None => false end)
               || has_tag s'
  end.

(** [isinstance(v, str)] *)
Definition is_str (v : json) : bool :=
  match v with JStr _ => true | _ => false end.

(** The decoded reply has a first choice: [data.get("choices", [])[0]]
    does not raise. *)
Definition has_first_choice (data : json) : bool :=
  match data with
  | JDict items =>
      match default (JList []) (assoc (lit "choices") items) with
      | JList (_ :: _) | JStr (_ :: _) => true
      | _ => false
      end
  | _ => false
  end.

(** The first choice is an object one of whose fields has the wrong
    type: a truthy message that is not an object, a truthy message
    content that is not text, or, without usable content, a truthy text
    field that is not text. *)
Definition ill_typed_choice (items : list (str * json)) : bool :=
  match assoc (lit "message") items with
  | Some (JDict ms) =>
      match assoc (lit "content") ms with
      | Some c =>
          if truthy c then negb (is_str c)
          else match assoc (lit "text") items with
               | Some t => truthy t && negb (is_str t)
               | None => false
               end
      | None =>
          match assoc (lit "text") items with
          | Some t => truthy t && negb (is_str t)
          | None => false
          end
      end
  | Some m =>
      if truthy m then true
      else match assoc (lit "text") items with
           | Some t => truthy t && negb (is_str t)
           | None => false
           end
  | None =>
      match assoc (lit "text") items with
      | Some t => truthy t && negb (is_str t)
      | None => false
      end
  end.

(** The two papers agree on the four fields the digest reads. *)
Definition same_digest_fields (p q : paper) : Prop :=
  p !! "title"%string = q !! "title"%string
  /\ p !! "summary"%string = q !! "summary"%string
  /\ p !! "authors"%string = q !! "authors"%string
  /\ p !! "link"%string = q !! "link"%string.

(** The paper lacks one of the four fields the digest reads. *)
Definition lacks_digest_field (p : paper) : bool :=
  bool_decide (p !! "summary"%string = None)
  || bool_decide (p !! "title"%string = None)
  || bool_decide (p !! "authors"%string = None)
  || bool_decide (p !! "link"%string = None).

(** The POST requests made for [n] papers before the one that lacks a
    field: the summary is read first, so a paper without summary costs no
    request, while any other missing field is noticed after the request
    for that paper. *)
Definition posts_before_key_error (rt : runtime) (n : nat) (p : paper) : nat :=
  match p !! "summary"%string with
  | None => posts_per_summary rt * n
  | Some _ => posts_per_summary rt * S n
  end.

(** A host on which every call succeeds. *)
Definition obliging_host : host :=
  {| succeeds := fun _ => true;
     date_at_write := {| year := 2024; month := 5; day := 7 |} |}.

(** A paper without summary. *)
Definition paper_without_summary : paper :=
  list_to_map [("title", lit "T"); ("link", lit "L"); ("authors", lit "A")]%string.

(** A paper with only the four fields the digest reads. *)
Definition short_paper (title abs_text : string) : paper :=
  list_to_map
    [("title", lit title); ("summary", lit abs_text);
     ("link", lit "http://arxiv.org/abs/1"); ("authors", lit "A, B")]%string.

(** ** The string primitives *)

Lemma take_drop_while {A} (f : A -> bool) (l : list A) :
  l = take_while f l ++ drop_while f l.
Proof.
  induction l as [|x l IH]; simpl; [done|].
  destruct (f x); simpl; [by f_equal|done].
Qed.

Lemma take_while_all {A} (f : A -> bool) (l : list A) :
  forallb f (take_while f l) = true.
Proof.
  induction l as [|x l IH]; simpl; [done|].
  destruct (f x) eqn:E; simpl; [by rewrite E|done].
Qed.

Lemma drop_while_head {A} (f : A -> bool) (l : list A) x :
  head (drop_while f l) = Some x -> f x = false.
Proof.
  induction l as [|y l IH]; simpl; [done|].
  destruct (f y) eqn:E; simpl; [done|]. by intros [= <-].
Qed.

Lemma has_nonspace_app s t :
  has_nonspace (s ++ t) = has_nonspace s || has_nonspace t.
Proof. apply existsb_app. Qed.

Lemma all_space_no_nonspace s :
  forallb isspace s = true -> has_nonspace s = false.
Proof.
  induction s as [|c s IH]; simpl; [done|].
  intros [Hc Hs]%andb_true_iff. by rewrite Hc, IH.
Qed.

Lemma has_nonspace_reverse s : has_nonspace (reverse s) = has_nonspace s.
Proof.
  induction s as [|c s IH]; [done|].
  rewrite reverse_cons, has_nonspace_app, IH. simpl.
  rewrite orb_false_r. apply orb_comm.
Qed.

(** [lstrip] and [rstrip] cut white space only. *)
Lemma lstrip_split s :
  exists pre, s = pre ++ lstrip s /\ forallb isspace pre = true.
Proof.
  exists (take_while isspace s). split.
  - apply take_drop_while.
  - apply take_while_all.
Qed.

Lemma rstrip_split s :
  exists post, s = rstrip s ++ post /\ forallb isspace post = true.
Proof.
  exists (reverse (take_while isspace (reverse s))). split.
  - unfold rstrip. rewrite <- reverse_app, <- take_drop_while.
    symmetry. apply reverse_involutive.
  - rewrite forallb_forall. intros c Hc.
    pose proof (take_while_all isspace (reverse s)) as H.
    rewrite forallb_forall in H. apply H.
    rewrite <- list_elem_of_In in Hc |- *.
    by rewrite elem_of_reverse in Hc.
Qed.

Lemma has_nonspace_lstrip s : has_nonspace (lstrip s) = has_nonspace s.
Proof.
  destruct (lstrip_split s) as (pre & Hs & Hpre).
  rewrite Hs at 2. rewrite has_nonspace_app.
  by rewrite (all_space_no_nonspace _ Hpre).
Qed.

Lemma has_nonspace_rstrip s : has_nonspace (rstrip s) = has_nonspace s.
Proof.
  destruct (rstrip_split s) as (post & Hs & Hpost).
  rewrite Hs at 2. rewrite has_nonspace_app.
  by rewrite (all_space_no_nonspace _ Hpost), orb_false_r.
Qed.

Lemma has_nonspace_strip s : has_nonspace (strip s) = has_nonspace s.
Proof. unfold strip. by rewrite has_nonspace_rstrip, has_nonspace_lstrip. Qed.

Lemma lstrip_head s c : head (lstrip s) = Some c -> isspace c = false.
Proof. apply drop_while_head. Qed.

Lemma rstrip_last s c : last (rstrip s) = Some c -> isspace c = false.
Proof. unfold rstrip. rewrite last_reverse. apply drop_while_head. Qed.

Lemma rstrip_head s c : head (rstrip s) = Some c -> head s = Some c.
Proof.
  destruct (rstrip_split s) as (post & Hs & _). intros H.
  rewrite Hs. destruct (rstrip s); [done|]. done.
Qed.

(** What [strip] returns neither starts nor ends with white space. *)
Lemma strip_head s c : head (strip s) = Some c -> isspace c = false.
Proof. intros H. apply rstrip_head in H. by apply lstrip_head in H. Qed.

Lemma strip_last s c : last (strip s) = Some c -> isspace c = false.
Proof. apply rstrip_last. Qed.

(** [strip] returns the empty string exactly on blank input. *)
Lemma strip_nil_iff s : strip s = [] <-> has_nonspace s = false.
Proof.
  rewrite <- has_nonspace_strip. split.
  - by intros ->.
  - destruct (strip s) as [|c r] eqn:E; [done|].
    intros H. exfalso.
    assert (isspace c = false) as Hc by (apply (strip_head s); by rewrite E).
    simpl in H. by rewrite Hc in H.
Qed.

Lemma strip_edge_clean s : edge_clean (strip s) = true.
Proof.
  unfold edge_clean. apply andb_true_iff. split.
  - destruct (head (strip s)) as [c|] eqn:E; [|done].
    by rewrite (strip_head _ _ E).
  - destruct (last (strip s)) as [c|] eqn:E; [|done].
    by rewrite (strip_last _ _ E).
Qed.

(** A string between two characters that are not white space is left
    alone by [strip]. *)
Lemma strip_bracketed a b m :
  isspace a = false -> isspace b = false ->
  strip (a :: m ++ [b]) = a :: m ++ [b].
Proof.
  intros Ha Hb. unfold strip, lstrip, rstrip. simpl. rewrite Ha.
  rewrite reverse_cons, reverse_app. simpl. rewrite Hb.
  change (b :: reverse m ++ [a]) with ([b] ++ reverse m ++ [a]).
  rewrite !reverse_app, reverse_involutive. done.
Qed.

(** ** The sentence splitter *)

(** The pattern needs a backslash: without one the text is one piece. *)
Lemma split_go_no_backslash t prev cur :
  backslash ∉ t -> split_go 0 prev cur t = [reverse cur ++ t].
Proof.
  revert prev cur. induction t as [|c t IH]; intros prev cur Hn.
  - simpl. by rewrite app_nil_r.
  - cbn [split_go]. apply not_elem_of_cons in Hn as [Hc Ht].
    assert (sep_len prev (c :: t) = None) as ->.
    { unfold sep_len. destruct t as [|s rest]; [done|].
      destruct (N.eqb_spec c backslash) as [->|_]; [done|].
      by rewrite andb_false_r. }
    rewrite IH by done. by rewrite reverse_cons, <- app_assoc.
Qed.

Lemma re_split_no_backslash text :
  backslash ∉ text -> re_split_sentences text = [text].
Proof. intros H. unfold re_split_sentences. by rewrite split_go_no_backslash. Qed.

Lemma extractive_summary_no_backslash text :
  backslash ∉ text -> extractive_summary text = strip text.
Proof. intros H. unfold extractive_summary. by rewrite re_split_no_backslash. Qed.

(** A piece that ends at a match ends with one of [. ! ?], so the first
    piece of a text that is not blank is not blank. *)
Lemma split_go_first t cur :
  has_nonspace (reverse cur ++ t) = true ->
  exists seg rest,
    split_go 0 (head cur) cur t = seg :: rest /\ has_nonspace seg = true.
Proof.
  revert cur. induction t as [|c t IH]; intros cur H.
  - simpl. exists (reverse cur), []. by rewrite app_nil_r in H.
  - assert (exists seg rest,
      split_go 0 (Some c) (c :: cur) t = seg :: rest
      /\ has_nonspace seg = true) as Hstep.
    { apply (IH (c :: cur)). by rewrite reverse_cons, <- app_assoc. }
    cbn [split_go].
    destruct (sep_len (head cur) (c :: t)) as [[|k]|] eqn:E; [done| |done].
    exists (reverse cur), (split_go k (Some c) [] t). split; [done|].
    unfold sep_len in E. destruct t as [|s rest]; [done|].
    destruct (lookbehind_punct (head cur)) eqn:Hp; [|done].
    destruct cur as [|p cur']; [done|]. simpl in Hp.
    rewrite reverse_cons, has_nonspace_app. apply orb_true_iff. right.
    simpl. rewrite orb_false_r. apply negb_true_iff.
    apply orb_true_iff in Hp as [Hp|Hp];
      [apply orb_true_iff in Hp as [Hp|Hp]|];
      apply N.eqb_eq in Hp; by subst p.
Qed.

Lemma join_head_nonspace sep seg rest :
  has_nonspace seg = true -> has_nonspace (join sep (seg :: rest)) = true.
Proof.
  intros H. destruct rest as [|r rest]; [done|].
  change (join sep (seg :: r :: rest)) with (seg ++ sep ++ join sep (r :: rest)).
  by rewrite has_nonspace_app, H.
Qed.

(** The extractive summary of a text that is not blank is not empty. *)
Lemma extractive_summary_nonempty text :
  has_nonspace text = true -> extractive_summary text <> [].
Proof.
  intros H. unfold extractive_summary, re_split_sentences.
  destruct (split_go_first text []) as (seg & rest & E & Hseg); [done|].
  change (head []) with (@None char) in E.
  rewrite E, strip_nil_iff. simpl take.
  by rewrite join_head_nonspace.
Qed.

(** ** [summarize_text] *)

Section Summarizer.
Context (rt : runtime).

Lemma summarize_text_no_key text w :
  key_configured rt = false ->
  summarize_text rt text w = (Ok (extractive_summary text), w).
Proof. intros H. unfold summarize_text. by rewrite H. Qed.

Lemma summarize_text_key text w :
  key_configured rt = true ->
  summarize_text rt text w =
    (match read_reply rt (post_reply rt text w) with
     | Ok s => Ok s
     | Raise _ => Ok (extractive_summary text)
     end, S w).
Proof.
  intros H. unfold summarize_text, io_try. rewrite H. simpl.
  by destruct (read_reply rt (post_reply rt text w)).
Qed.

(** The function returns on every path, and the state counts the
    requests it made. *)
Lemma summarize_text_total text w :
  exists s,
    summarize_text rt text w = (Ok s, (w + posts_per_summary rt)%nat).
Proof.
  unfold posts_per_summary. destruct (key_configured rt) eqn:K.
  - rewrite summarize_text_key by done.
    replace (w + 1)%nat with (S w) by lia.
    destruct (read_reply rt (post_reply rt text w)); eauto.
  - rewrite summarize_text_no_key by done.
    replace (w + 0)%nat with w by lia. eauto.
Qed.

Lemma read_reply_failed reply :
  request_failed reply = true -> exists e, read_reply rt reply = Raise e.
Proof.
  unfold request_failed, read_reply. destruct reply as [resp|e]; simpl.
  - destruct (raise_for_status resp) as [[]|e1]; simpl; [|eauto].
    destruct (json_body resp) as [d|e2]; simpl; [done|eauto].
  - eauto.
Qed.

Lemma read_reply_ok resp data :
  raise_for_status resp = Ok () -> json_body resp = Ok data ->
  read_reply rt (Ok resp) = content ← select_content rt data; py_strip content.
Proof. intros H1 H2. unfold read_reply. simpl. by rewrite H1, H2. Qed.

(** Whatever the body of the [try] returns went through [strip]. *)
Lemma read_reply_stripped reply s :
  read_reply rt reply = Ok s ->
  exists resp data c,
    reply = Ok resp /\ raise_for_status resp = Ok () /\ json_body resp = Ok data
    /\ select_content rt data = Ok (JStr c) /\ s = strip c.
Proof.
  unfold read_reply. destruct reply as [resp|e]; simpl; [|done].
  destruct (raise_for_status resp) as [[]|e1] eqn:E1; simpl; [|done].
  destruct (json_body resp) as [d|e2] eqn:E2; simpl; [|done].
  destruct (select_content rt d) as [v|e3] eqn:E3; simpl; [|done].
  destruct v; simpl; try done. intros [= <-].
  eexists resp, d, _. eauto.
Qed.

(** What [select_content] picks from a first choice that is an object
    without usable message content: its text field. *)
Lemma py_or_falsy m : truthy m = false -> py_or m (JDict []) = JDict [].
Proof. intros H. unfold py_or. by rewrite H. Qed.

Lemma py_get_dict cs k d :
  py_get (JDict cs) k d = Ok (default d (assoc k cs)).
Proof. done. Qed.

Lemma py_or_dict ms : py_or (JDict ms) (JDict []) = JDict ms.
Proof. by destruct ms. Qed.

Lemma select_content_first items choice rest :
  assoc (lit "choices") items = Some (JList (choice :: rest)) ->
  select_content rt (JDict items) =
    content ← choice_content choice;
    mret (if truthy content then content
          else JStr (py_str (isprintable rt) (float_repr rt) choice)).
Proof. intros H. unfold select_content. simpl. by rewrite H. Qed.

(** An object without usable message content yields its text field. *)
Lemma choice_content_text cs :
  lacks_content cs = true ->
  choice_content (JDict cs) = Ok (default JNull (assoc (lit "text") cs)).
Proof.
  intros Hl. unfold lacks_content in Hl. unfold choice_content.
  cbn [is_dict]. rewrite (py_get_dict cs (lit "message")).
  destruct (assoc (lit "message") cs) as [m|] eqn:Em; simpl; [|done].
  destruct m as [|b|z|f|s|l|ms];
    try (apply negb_true_iff in Hl; by rewrite (py_or_falsy _ Hl)).
  rewrite py_or_dict, (py_get_dict ms).
  destruct (assoc (lit "content") ms) as [c0|]; simpl; [|done].
  apply negb_true_iff in Hl. by rewrite Hl.
Qed.

Lemma select_content_selected items choice rest c :
  assoc (lit "choices") items = Some (JList (choice :: rest)) ->
  selected rt choice c ->
  select_content rt (JDict items) = Ok (JStr c).
Proof.
  intros Hc Hsel. rewrite (select_content_first _ _ _ Hc).
  destruct Hsel as [cs ms c -> Hm Hcont Hne | cs t -> Hl Ht Hne
                   | cs -> Hl Hlt | Hnd].
  - unfold choice_content. cbn [is_dict].
    rewrite (py_get_dict cs (lit "message")), Hm. simpl.
    rewrite py_or_dict, (py_get_dict ms), Hcont. simpl.
    destruct c; [done|]. done.
  - rewrite (choice_content_text _ Hl), Ht. simpl. by destruct t.
  - rewrite (choice_content_text _ Hl). simpl.
    unfold lacks_text in Hlt.
    destruct (assoc (lit "text") cs) as [t|]; simpl; [|done].
    apply negb_true_iff in Hlt. by rewrite Hlt.
  - unfold choice_content. rewrite Hnd. done.
Qed.

Lemma summarize_text_api text w resp items choice rest c :
  key_configured rt = true ->
  post_reply rt text w = Ok resp ->
  raise_for_status resp = Ok () ->
  json_body resp = Ok (JDict items) ->
  assoc (lit "choices") items = Some (JList (choice :: rest)) ->
  selected rt choice c ->
  summarize_text rt text w = (Ok (strip c), S w).
Proof.
  intros K Hp Hs Hj Hc Hsel. rewrite summarize_text_key by done.
  rewrite Hp, (read_reply_ok _ _ Hs Hj).
  by rewrite (select_content_selected _ _ _ _ Hc Hsel).
Qed.

(** The stringification of an object starts and ends with a brace. *)
Lemma py_str_dict_bracketed items :
  exists m,
    py_str (isprintable rt) (float_repr rt) (JDict items) = 123 :: m ++ [125].
Proof. simpl. eauto. Qed.

End Summarizer.

(** C1, as evaluated on the script: with no credential configured,
    [summarize_text] on "A. B. C. D." returns the whole text "A. B. C. D."
    and not "A. B. C.".  The pattern of line 62 asks for a backslash and
    the letter s after the punctuation, not for white space, so a text
    without backslash is never split. *)
Theorem summarize_text_four_sentences rt w :
  key_configured rt = false ->
  fst (summarize_text rt (lit "A. B. C. D.") w) = Ok (lit "A. B. C. D.")
  /\ fst (summarize_text rt (lit "A. B. C. D.") w) <> Ok (lit "A. B. C.").
Proof.
  intros K. rewrite summarize_text_no_key by done. simpl fst.
  assert (extractive_summary (lit "A. B. C. D.") = lit "A. B. C. D.") as ->
    by (vm_compute; reflexivity).
  split; [done|]. intros H. vm_compute in H. discriminate H.
Qed.

(** C4: when the POST fails (the request raises, the status check raises
    or the body is not JSON), [summarize_text] returns, without raising,
    exactly the string it returns for the same text in a run with no
    credential configured. *)
Theorem summarize_text_request_failure rt rt' text w w' :
  request_failed (post_reply rt text w) = true ->
  key_configured rt' = false ->
  fst (summarize_text rt text w) = fst (summarize_text rt' text w')
  /\ exists s, fst (summarize_text rt text w) = Ok s.
Proof.
  intros Hf K'. rewrite (summarize_text_no_key rt') by done.
  destruct (key_configured rt) eqn:K.
  - rewrite summarize_text_key by done.
    destruct (read_reply_failed rt _ Hf) as [e ->]. simpl. eauto.
  - rewrite summarize_text_no_key by done. simpl. eauto.
Qed.

(** C10: on every path [summarize_text] returns a string, and that string
    neither starts nor ends with white space. *)
Theorem summarize_text_edge_clean rt text w :
  exists s, fst (summarize_text rt text w) = Ok s /\ edge_clean s = true.
Proof.
  destruct (key_configured rt) eqn:K.
  - rewrite summarize_text_key by done.
    destruct (read_reply rt (post_reply rt text w)) as [s|e] eqn:E; simpl.
    + exists s. split; [done|].
      apply read_reply_stripped in E as (resp & data & c & _ & _ & _ & _ & ->).
      apply strip_edge_clean.
    + eexists. split; [done|]. apply strip_edge_clean.
  - rewrite summarize_text_no_key by done. simpl.
    eexists. split; [done|]. apply strip_edge_clean.
Qed.

Lemma text_field_ill_typed cs :
  match assoc (lit "text") cs with
  | Some t => truthy t && negb (is_str t)
  | None => false
  end = true ->
  exists v, py_get (JDict cs) (lit "text") JNull = Ok v
            /\ truthy v = true /\ is_str v = false.
Proof.
  rewrite py_get_dict. destruct (assoc (lit "text") cs) as [t|]; [|done].
  intros [Ht Hs]%andb_true_iff. apply negb_true_iff in Hs. eauto.
Qed.

Lemma py_strip_not_str v : is_str v = false -> py_strip v = Raise AttributeError.
Proof. by destruct v. Qed.

Lemma choice_ill_typed rt items cs rest :
  assoc (lit "choices") items = Some (JList (JDict cs :: rest)) ->
  ill_typed_choice cs = true ->
  (content ← select_content rt (JDict items); py_strip content)
  = Raise AttributeError.
Proof.
  intros Hc Hill. rewrite (select_content_first rt _ _ _ Hc).
  assert (choice_content (JDict cs) = Raise AttributeError
          \/ exists v, choice_content (JDict cs) = Ok v
                       /\ truthy v = true /\ is_str v = false) as Hcases.
  { unfold ill_typed_choice in Hill. unfold choice_content. cbn [is_dict].
    rewrite (py_get_dict cs (lit "message")).
    destruct (assoc (lit "message") cs) as [m|] eqn:Em; simpl.
    - destruct (truthy m) eqn:Tm.
      + destruct m as [|b|z|f|s|l|ms];
          try (left; unfold py_or; rewrite Tm; reflexivity).
        rewrite py_or_dict, (py_get_dict ms).
        right. destruct (assoc (lit "content") ms) as [c|]; simpl.
        * destruct (truthy c) eqn:Tc.
          -- apply negb_true_iff in Hill. eauto.
          -- by apply text_field_ill_typed.
        * by apply text_field_ill_typed.
      + rewrite (py_or_falsy _ Tm). right.
        destruct m as [|b|z|f|s|l|ms]; try (by apply text_field_ill_typed).
        destruct ms; [|done]. by apply text_field_ill_typed.
    - right. by apply text_field_ill_typed. }
  destruct Hcases as [-> | (v & -> & Tv & Sv)]; [done|].
  simpl. rewrite Tv. by apply py_strip_not_str.
Qed.

Lemma selected_by_text rt cs :
  lacks_content cs = true ->
  match assoc (lit "text") cs with
  | Some t => truthy t && negb (is_str t)
  | None => false
  end = false ->
  exists c, selected rt (JDict cs) c.
Proof.
  intros Hl Ht. destruct (assoc (lit "text") cs) as [t|] eqn:Et.
  - destruct (truthy t) eqn:Tt.
    + destruct t as [|b|z|f|s|l|kv]; try done.
      exists s. apply (sel_text rt _ cs); try done. by destruct s.
    + eexists. apply (sel_stringified rt _ cs); try done.
      unfold lacks_text. by rewrite Et, Tt.
  - eexists. apply (sel_stringified rt _ cs); try done.
    unfold lacks_text. by rewrite Et.
Qed.

(** Every first choice either selects a text or is ill-typed. *)
Lemma selected_or_ill_typed rt choice :
  (exists c, selected rt choice c)
  \/ (exists cs, choice = JDict cs /\ ill_typed_choice cs = true).
Proof.
  destruct (is_dict choice) eqn:Hd.
  2: { left. eexists. by apply sel_not_object. }
  destruct choice as [| | | | | |cs]; try done.
  destruct (ill_typed_choice cs) eqn:Hill; [right; eauto|]. left.
  unfold ill_typed_choice in Hill.
  destruct (assoc (lit "message") cs) as [m|] eqn:Em.
  - destruct m as [|b|z|f|s|l|ms].
    1-6: (destruct (truthy _) eqn:Tm in Hill; [done|];
          apply selected_by_text; [|done];
          unfold lacks_content; rewrite Em; by rewrite Tm).
    destruct (assoc (lit "content") ms) as [c|] eqn:Ec.
    + destruct (truthy c) eqn:Tc.
      * destruct c as [|b|z|f|s|l|kv]; try done.
        exists s. apply (sel_content rt _ cs ms); try done. by destruct s.
      * apply selected_by_text; [|done].
        unfold lacks_content. by rewrite Em, Ec, Tc.
    + apply selected_by_text; [|done].
      unfold lacks_content. by rewrite Em, Ec.
  - apply selected_by_text; [|done]. unfold lacks_content. by rewrite Em.
Qed.

(** C3, amended: when the API call succeeds and the reply is an object
    whose [choices] list has a first element [choice], [summarize_text]
    returns, stripped of leading and trailing white space, the text
    selected from [choice]: the content of its message object when that
    is a non-empty string; otherwise, when the message or its content
    is missing or falsy, its text field when that is a non-empty string;
    and when both are missing or falsy, or [choice] is not an object,
    the stringification of [choice].  In every other case [choice] is
    ill-typed (a truthy message that is not an object, or a truthy
    content or text that is not a string) and the extractive summary of
    the input comes back instead. *)
Theorem summarize_text_selected rt text w resp items choice rest :
  key_configured rt = true ->
  post_reply rt text w = Ok resp ->
  raise_for_status resp = Ok () ->
  json_body resp = Ok (JDict items) ->
  assoc (lit "choices") items = Some (JList (choice :: rest)) ->
  (forall c, selected rt choice c ->
             fst (summarize_text rt text w) = Ok (strip c))
  /\ ((exists c, selected rt choice c)
      \/ (exists cs,
            choice = JDict cs /\ ill_typed_choice cs = true
            /\ fst (summarize_text rt text w) = Ok (extractive_summary text))).
Proof.
  intros K Hp Hs Hj Hc. split.
  - intros c Hsel.
    by rewrite (summarize_text_api rt _ _ _ _ _ _ _ K Hp Hs Hj Hc Hsel).
  - destruct (selected_or_ill_typed rt choice) as [Hsel|(cs & -> & Hill)];
      [by left|right].
    exists cs. split; [done|]. split; [done|].
    rewrite summarize_text_key by done.
    rewrite Hp, (read_reply_ok rt _ _ Hs Hj).
    by rewrite (choice_ill_typed rt _ _ _ Hc Hill).
Qed.

(** C9, amended: when the first element of [choices] is an object whose
    message content is present but the empty string and whose text field
    is missing or falsy, or is not an object at all, [summarize_text]
    returns the stringification of that element stripped of leading and
    trailing white space; for an object this is the whole stringification
    and it is not empty. *)
Theorem summarize_text_stringified rt text w resp items choice rest :
  key_configured rt = true ->
  post_reply rt text w = Ok resp ->
  raise_for_status resp = Ok () ->
  json_body resp = Ok (JDict items) ->
  assoc (lit "choices") items = Some (JList (choice :: rest)) ->
  is_dict choice = false
  \/ (exists cs ms,
        choice = JDict cs
        /\ assoc (lit "message") cs = Some (JDict ms)
        /\ assoc (lit "content") ms = Some (JStr [])
        /\ lacks_text cs = true) ->
  let s := py_str (isprintable rt) (float_repr rt) choice in
  fst (summarize_text rt text w) = Ok (strip s)
  /\ (is_dict choice = true -> strip s = s /\ s <> []).
Proof.
  intros K Hp Hs Hj Hc Hshape s. split.
  - assert (selected rt choice s) as Hsel.
    { destruct Hshape as [Hnd | (cs & ms & -> & Hm & Hcont & Hlt)].
      - by apply sel_not_object.
      - apply (sel_stringified rt _ cs); [done| |done].
        unfold lacks_content. by rewrite Hm, Hcont. }
    by rewrite (summarize_text_api rt _ _ _ _ _ _ _ K Hp Hs Hj Hc Hsel).
  - intros Hd. destruct choice; try done.
    destruct (py_str_dict_bracketed rt items0) as [m Hm].
    subst s. rewrite Hm. split; [|done].
    by apply strip_bracketed.
Qed.

(** C7, amended: for every text with at least one character that is not
    white space, [summarize_text] returns a string, and that string is
    empty only on the API path, exactly when the call succeeded and the
    content selected from the reply is blank; on the no-credential path
    and on the exception path the result is never empty. *)
Theorem summarize_text_nonempty rt text w :
  has_nonspace text = true ->
  exists s,
    fst (summarize_text rt text w) = Ok s
    /\ (s = [] <->
        key_configured rt = true
        /\ exists resp data c,
             post_reply rt text w = Ok resp
             /\ raise_for_status resp = Ok ()
             /\ json_body resp = Ok data
             /\ select_content rt data = Ok (JStr c)
             /\ has_nonspace c = false).
Proof.
  intros Ht. pose proof (extractive_summary_nonempty _ Ht) as Hne.
  destruct (key_configured rt) eqn:K.
  - rewrite summarize_text_key by done.
    destruct (read_reply rt (post_reply rt text w)) as [s|e] eqn:E; simpl.
    + exists s. split; [done|].
      pose proof E as E'.
      apply read_reply_stripped in E' as (resp & data & c & Hp & Hs & Hj & Hsel & ->).
      rewrite strip_nil_iff. split.
      * intros Hb. split; [done|]. exists resp, data, c. eauto.
      * intros (_ & resp' & data' & c' & Hp' & Hs' & Hj' & Hsel' & Hb).
        rewrite Hp in Hp'. injection Hp' as <-.
        rewrite Hj in Hj'. injection Hj' as <-.
        rewrite Hsel in Hsel'. by injection Hsel' as <-.
    + eexists. split; [done|]. split; [done|].
      intros (_ & resp & data & c & Hp & Hs & Hj & Hsel & _).
      rewrite Hp, (read_reply_ok rt _ _ Hs Hj), Hsel in E. done.
  - rewrite summarize_text_no_key by done. simpl.
    eexists. split; [done|]. split; [done|]. by intros [? _].
Qed.

(** ** [search_arxiv] *)

Section Fetcher.
Context (rt : runtime).

Lemma search_arxiv_unencodable query max_results :
  encodable query = false ->
  search_arxiv rt query max_results = Raise UnicodeEncodeError
  /\ fetched_entries rt query max_results = [].
Proof.
  intros H. unfold search_arxiv, fetched_entries, arxiv_reply, py_quote_plus.
  by rewrite H.
Qed.

Lemma search_arxiv_unfold query max_results :
  encodable query = true ->
  search_arxiv rt query max_results =
    search_loop rt (fetched_entries rt query max_results) [].
Proof.
  intros H. unfold search_arxiv, fetched_entries, arxiv_reply, py_quote_plus.
  rewrite H. simpl.
  destruct (arxiv_get rt (quote_plus rt query) max_results) as [resp|e];
    simpl; [|done].
  by destruct (raise_for_status resp) as [[]|e].
Qed.

Lemma fetch_failed_encodable query max_results :
  fetch_failed (arxiv_reply rt query max_results) = true ->
  encodable query = true.
Proof.
  unfold fetch_failed, arxiv_reply, py_quote_plus.
  by destruct (encodable query).
Qed.

Lemma fetched_entries_failed query max_results :
  fetch_failed (arxiv_reply rt query max_results) = true ->
  fetched_entries rt query max_results = [].
Proof.
  unfold fetch_failed, fetched_entries.
  destruct (arxiv_reply rt query max_results) as [[resp|e]|]; [|done|done].
  by destruct (raise_for_status resp).
Qed.

Lemma search_arxiv_ok_encodable query max_results (papers : list paper) :
  search_arxiv rt query max_results = Ok papers -> encodable query = true.
Proof.
  destruct (encodable query) eqn:E; [done|].
  by destruct (search_arxiv_unencodable query max_results E) as [-> _].
Qed.

Lemma nameless_encodable query max_results :
  forallb authors_named (fetched_entries rt query max_results) = false ->
  encodable query = true.
Proof.
  destruct (encodable query) eqn:E; [done|].
  by destruct (search_arxiv_unencodable query max_results E) as [_ ->].
Qed.

(** [a.name for a in authors] goes through when every author is named. *)
Lemma author_names authors :
  forallb (fun a => bool_decide (is_Some (author_name a))) authors = true ->
  names_of authors = Ok (omap author_name authors).
Proof.
  induction authors as [|a authors IH]; [done|].
  intros [Ha Hr]%andb_true_iff. apply bool_decide_eq_true in Ha as [n Hn].
  destruct a as [name]. simpl in Hn. subst name.
  cbn [names_of]. unfold dot_name at 1. simpl.
  by rewrite IH.
Qed.

Lemma make_paper_record e :
  authors_named e = true ->
  exists p, make_paper rt e = Ok p /\ record_of rt e p.
Proof.
  intros H. unfold make_paper. rewrite (author_names _ H). simpl.
  eexists. split; [done|]. unfold record_of.
  split; [|by repeat split].
  rewrite !dom_insert_L, dom_empty_L. simpl. set_solver.
Qed.

Lemma search_loop_records entries : forall papers,
  forallb (authors_named) entries = true ->
  exists new,
    search_loop rt entries papers = Ok (papers ++ new)
    /\ Forall2 (record_of rt) entries new.
Proof.
  induction entries as [|e entries IH]; intros papers H.
  - exists []. simpl. by rewrite app_nil_r.
  - apply andb_true_iff in H as [He Hr].
    destruct (make_paper_record e He) as (p & Hp & Hrec).
    destruct (IH (papers ++ [p]) Hr) as (new & Hnew & Hall).
    exists (p :: new). cbn [search_loop]. rewrite Hp. simpl.
    rewrite Hnew, <- app_assoc. split; [done|]. by constructor.
Qed.

End Fetcher.

(** C5: when the GET fails (the request or the status check raises),
    [search_arxiv] returns the empty list and raises nothing. *)
Theorem search_arxiv_fetch_failure rt query max_results :
  fetch_failed (arxiv_reply rt query max_results) = true ->
  search_arxiv rt query max_results = Ok [].
Proof.
  intros H.
  rewrite search_arxiv_unfold by (by eapply fetch_failed_encodable).
  by rewrite (fetched_entries_failed rt _ _ H).
Qed.


(** ** [generate_digest] *)

Section Digest.
Context (rt : runtime).

Lemma paper_record_fields (p : paper) :
  is_paper_record p ->
  exists title abs_text link authors : str,
    p !! "title"%string = Some title /\ p !! "summary"%string = Some abs_text
    /\ p !! "link"%string = Some link /\ p !! "authors"%string = Some authors.
Proof.
  unfold is_paper_record, schema. intros H.
  apply Forall_cons in H as [[title Ht] H].
  apply Forall_cons in H as [[abs_text Ha] H].
  apply Forall_cons in H as [[link Hl] H].
  apply Forall_cons in H as [[authors Hau] H].
  eauto 10.
Qed.

(** The four lines the loop appends for the paper of ordinal [i]. *)
Lemma digest_loop_cons i (p : paper) rest lines w w'
      (title abs_text link authors summary : str) :
  p !! "title"%string = Some title -> p !! "summary"%string = Some abs_text ->
  p !! "link"%string = Some link -> p !! "authors"%string = Some authors ->
  summarize_text rt abs_text w = (Ok summary, w') ->
  digest_loop rt i (p :: rest) lines w =
    digest_loop rt (i + 1) rest
      (lines
       ++ [lit "### " ++ str_of_Z i ++ lit ". " ++ title;
           lit "**Authors:** " ++ authors;
           lit "**Summary:** " ++ summary;
           lit "[Read on arXiv](" ++ link ++ lit ")" ++ nl]) w'.
Proof.
  intros Ht Ha Hl Hau Hs. cbn [digest_loop].
  unfold mbind, io_bind, lift, py_getitem.
  rewrite Ha. cbv beta iota. rewrite Hs. cbv beta iota.
  rewrite Ht. cbv beta iota zeta. rewrite Hau. cbv beta iota zeta.
  rewrite Hl. cbv beta iota zeta.
  f_equal. by rewrite <- !app_assoc.
Qed.

Lemma digest_loop_sections papers : forall i lines w,
  Forall is_paper_record papers ->
  exists new,
    digest_loop rt i papers lines w
    = (Ok (lines ++ new), (w + posts_per_summary rt * length papers)%nat)
    /\ length new = (4 * length papers)%nat
    /\ forall j p, papers !! j = Some p -> section_at rt i w new j p.
Proof.
  induction papers as [|p rest IH]; intros i lines w Hall.
  - exists []. simpl. rewrite app_nil_r.
    replace (w + posts_per_summary rt * 0)%nat with w by lia. done.
  - apply Forall_cons in Hall as [Hp Hrest].
    destruct (paper_record_fields p Hp)
      as (title & abs_text & link & authors & Ht & Ha & Hl & Hau).
    destruct (summarize_text_total rt abs_text w) as [summary Hs].
    rewrite (digest_loop_cons _ _ _ _ _ _ _ _ _ _ _ Ht Ha Hl Hau Hs).
    set (block := [lit "### " ++ str_of_Z i ++ lit ". " ++ title;
                   lit "**Authors:** " ++ authors;
                   lit "**Summary:** " ++ summary;
                   lit "[Read on arXiv](" ++ link ++ lit ")" ++ nl]).
    destruct (IH (i + 1)%Z (lines ++ block)
                 (w + posts_per_summary rt)%nat Hrest)
      as (new & Hnew & Hlen & Hsec).
    exists (block ++ new). split; [|split].
    + rewrite Hnew, <- app_assoc. f_equal. cbn [length]. lia.
    + rewrite length_app. subst block. cbn [length]. unfold str in *. lia.
    + intros [|j] q Hq.
      * injection Hq as <-.
        exists title, abs_text, link, authors, summary.
        replace (w + posts_per_summary rt * 0)%nat with w by lia.
        rewrite Hs, Z.add_0_r. by repeat split.
      * destruct (Hsec j q Hq)
          as (t & a & l & au & s & Ht' & Ha' & Hl' & Hau' & Hs' & L0 & L1 & L2 & L3).
        exists t, a, l, au, s.
        replace (w + posts_per_summary rt * S j)%nat
          with (w + posts_per_summary rt + posts_per_summary rt * j)%nat by lia.
        replace (i + Z.of_nat (S j))%Z with (i + 1 + Z.of_nat j)%Z by lia.
        replace (4 * S j)%nat with (4 + 4 * j)%nat by lia.
        by repeat split.
Qed.

End Digest.

(** *** The text of the document *)

Lemma join_cons_concat (sep p : str) (l : list str) :
  join sep (p :: l) = p ++ concat (map (fun x => sep ++ x) l).
Proof.
  revert p. induction l as [|q l IH]; intros p.
  - simpl. by rewrite app_nil_r.
  - change (join sep (p :: q :: l)) with (p ++ sep ++ join sep (q :: l)).
    rewrite IH. simpl. by rewrite <- !app_assoc.
Qed.

Lemma paper_field_lookup (p : paper) k (v : str) :
  p !! k = Some v -> paper_field p k = v.
Proof. intros H. unfold paper_field. by rewrite H. Qed.

(** The loop started at ordinal [k + 1], after the requests of [k]
    papers, appends the lines of sections [k], [k + 1], ... *)
Lemma digest_loop_text rt w0 (papers : list paper) : forall k lines,
  Forall is_paper_record papers ->
  exists new,
    digest_loop rt (Z.of_nat k + 1) papers lines
      (w0 + posts_per_summary rt * k)%nat
    = (Ok (lines ++ new),
       (w0 + posts_per_summary rt * (k + length papers))%nat)
    /\ concat (map (fun x => nl ++ x) new)
       = concat (imap (fun j => section_text rt w0 (k + j)) papers).
Proof.
  induction papers as [|p rest IH]; intros k lines Hall.
  - exists []. simpl. rewrite app_nil_r, Nat.add_0_r. done.
  - apply Forall_cons in Hall as [Hp Hrest].
    destruct (paper_record_fields p Hp)
      as (title & abs_text & link & authors & Ht & Ha & Hl & Hau).
    destruct (summarize_text_total rt abs_text
                (w0 + posts_per_summary rt * k)%nat) as [summary Hs].
    rewrite (digest_loop_cons rt _ _ _ _ _ _ _ _ _ _ _ Ht Ha Hl Hau Hs).
    set (block := [lit "### " ++ str_of_Z (Z.of_nat k + 1) ++ lit ". " ++ title;
                   lit "**Authors:** " ++ authors;
                   lit "**Summary:** " ++ summary;
                   lit "[Read on arXiv](" ++ link ++ lit ")" ++ nl]).
    destruct (IH (S k) (lines ++ block) Hrest) as (new & Hnew & Htext).
    replace (Z.of_nat k + 1 + 1)%Z with (Z.of_nat (S k) + 1)%Z by lia.
    replace (w0 + posts_per_summary rt * k + posts_per_summary rt)%nat
      with (w0 + posts_per_summary rt * S k)%nat by lia.
    exists (block ++ new). split.
    + rewrite Hnew, <- app_assoc. f_equal. cbn [length]. f_equal. lia.
    + rewrite map_app, concat_app, Htext, imap_cons. cbn [concat].
      f_equal.
      * unfold section_text.
        rewrite (paper_field_lookup _ _ _ Ht), (paper_field_lookup _ _ _ Ha),
          (paper_field_lookup _ _ _ Hl), (paper_field_lookup _ _ _ Hau).
        rewrite Nat.add_0_r, Hs. subst block. cbn [map concat fst].
        rewrite app_nil_r. by rewrite <- !app_assoc.
      * f_equal. apply imap_ext. intros j q _. simpl. f_equal. lia.
Qed.

(** C6: for every list of [n] PaperRecords the document
    [generate_digest] returns is the title line followed by exactly [n]
    sections, one per paper and in input order: section [j] (counted
    from 0) is the text of paper [j] of the input, made of the heading
    with ordinal [j + 1] and the paper's title, its authors line, the
    summary [summarize_text] gave for its summary field at the [j]-th
    call, and the Markdown link to its link field.  Nothing else is in
    the document. *)
Theorem generate_digest_sections rt (papers : list paper) w :
  Forall is_paper_record papers ->
  generate_digest rt papers w
  = (Ok (title_line rt ++ concat (imap (section_text rt w) papers)),
     (w + posts_per_summary rt * length papers)%nat).
Proof.
  intros Hall.
  destruct (digest_loop_text rt w papers 0%nat [title_line rt] Hall)
    as (new & Hrun & Htext).
  rewrite Nat.mul_0_r, Nat.add_0_r in Hrun.
  change (Z.of_nat 0 + 1)%Z with 1%Z in Hrun. cbn [Nat.add] in Hrun.
  unfold generate_digest, mbind, io_bind. rewrite Hrun.
  cbn [mret io_ret app]. by rewrite join_cons_concat, Htext.
Qed.

(** *** The text of the date *)

Lemma str_eqb_eq s t : str_eqb s t = true -> s = t.
Proof.
  revert t. induction s as [|c s IH]; intros [|d t]; simpl; try done.
  intros [Hc Hs]%andb_true_iff. apply N.eqb_eq in Hc. subst d.
  by rewrite (IH t Hs).
Qed.

Lemma zfill4_digits y :
  (0 <= y <= 9999)%Z ->
  zfill 4 (str_of_Z y)
  = [digit_char (y / 1000); digit_char (y / 100 mod 10);
     digit_char (y / 10 mod 10); digit_char (y mod 10)].
Proof.
  intros Hy.
  assert (forallb
            (fun n =>
               str_eqb (zfill 4 (str_of_Z (Z.of_nat n)))
                 [digit_char (Z.of_nat n / 1000);
                  digit_char (Z.of_nat n / 100 mod 10);
                  digit_char (Z.of_nat n / 10 mod 10);
                  digit_char (Z.of_nat n mod 10)])
            (seq 0 (100 * 100)) = true) as Hall by (vm_compute; reflexivity).
  rewrite forallb_forall in Hall.
  specialize (Hall (Z.to_nat y)). rewrite Z2Nat.id in Hall by lia.
  apply str_eqb_eq, Hall, in_seq. lia.
Qed.

Lemma zfill2_digits m :
  (0 <= m <= 99)%Z ->
  zfill 2 (str_of_Z m) = [digit_char (m / 10); digit_char (m mod 10)].
Proof.
  intros Hm.
  assert (forallb
            (fun n =>
               str_eqb (zfill 2 (str_of_Z (Z.of_nat n)))
                 [digit_char (Z.of_nat n / 10); digit_char (Z.of_nat n mod 10)])
            (seq 0 100) = true) as Hall by (vm_compute; reflexivity).
  rewrite forallb_forall in Hall.
  specialize (Hall (Z.to_nat m)). rewrite Z2Nat.id in Hall by lia.
  apply str_eqb_eq, Hall, in_seq. lia.
Qed.

Lemma isoformat_text d : valid_date d -> isoformat d = date_text d.
Proof.
  intros (Hy & Hm & Hd). unfold isoformat, date_text.
  rewrite zfill4_digits by lia. by rewrite !zfill2_digits by lia.
Qed.

(** C8: for the empty list [generate_digest] returns the title line alone
    and makes no request: the fixed topic, then, in brackets, the ten
    characters [YYYY-MM-DD] of the date of the day, then a newline. *)
Theorem generate_digest_empty rt w :
  valid_date (date_today rt) ->
  generate_digest rt [] w
  = (Ok (lit "# Weekly Digest: microwave plasma CVD diamond growth ("
         ++ date_text (date_today rt) ++ lit ")" ++ nl), w).
Proof.
  intros Hd.
  change (generate_digest rt [] w) with (Ok (title_line rt), w).
  unfold title_line. by rewrite (isoformat_text _ Hd).
Qed.

(** ** The statements at concrete runs *)

Lemma summarize_text_four_sentences_witness :
  key_configured no_key_run = false
  /\ fst (summarize_text no_key_run (lit "A. B. C. D.") 0%nat)
     = Ok (lit "A. B. C. D.")
  /\ fst (summarize_text no_key_run (lit "A. B. C. D.") 0%nat)
     <> Ok (lit "A. B. C.").
Proof.
  split; [reflexivity|].
  apply (summarize_text_four_sentences no_key_run 0%nat). reflexivity.
Defined.

(** The completion API times out. *)
Lemma summarize_text_request_failure_witness :
  key_configured timeout_run = true
  /\ fst (summarize_text timeout_run (lit "Films grow. Fast.") 0%nat)
     = fst (summarize_text no_key_run (lit "Films grow. Fast.") 7%nat)
  /\ exists s,
       fst (summarize_text timeout_run (lit "Films grow. Fast.") 0%nat) = Ok s.
Proof.
  split; [reflexivity|].
  apply (summarize_text_request_failure timeout_run no_key_run
           (lit "Films grow. Fast.") 0%nat 7%nat); reflexivity.
Defined.

(** The reply is [{"choices":[{"message":{"content":"X"}}]}]. *)
Lemma summarize_text_selected_witness :
  fst (summarize_text (reply_run (one_choice (message_with "X")))
         (lit "Films grow.") 0%nat)
  = Ok (strip (lit "X"))
  /\ strip (lit "X") = lit "X".
Proof.
  split; [|reflexivity].
  destruct (summarize_text_selected
              (reply_run (one_choice (message_with "X")))
              (lit "Films grow.") 0%nat
              {| raise_for_status := Ok (); text := [];
                 json_body := Ok (one_choice (message_with "X")) |}
              [(lit "choices", JList [message_with "X"])]
              (message_with "X") []
              eq_refl eq_refl eq_refl eq_refl eq_refl) as [Hsel _].
  apply Hsel.
  eapply sel_content; [reflexivity|reflexivity|reflexivity|discriminate].
Defined.

(** A reply whose content keeps its white space, and one whose content is
    empty beside a text field: neither is returned as it is. *)
Lemma summarize_text_selected_counterexample :
  fst (summarize_text (reply_run (one_choice (message_with " X ")))
         (lit "Films grow.") 0%nat)
  <> Ok (lit " X ")
  /\ fst (summarize_text (reply_run (one_choice (message_and_text "" "T")))
            (lit "Films grow.") 0%nat)
     <> Ok (lit "").
Proof. split; intros H; vm_compute in H; discriminate H. Qed.

(** The reply is [{"choices":[{"message":{"content":""}}]}]. *)
Lemma summarize_text_stringified_witness :
  fst (summarize_text (reply_run (one_choice (message_with "")))
         (lit "Films grow.") 0%nat)
  = Ok (lit "{'message': {'content': ''}}").
Proof.
  pose proof (summarize_text_stringified
                (reply_run (one_choice (message_with "")))
                (lit "Films grow.") 0%nat
                {| raise_for_status := Ok (); text := [];
                   json_body := Ok (one_choice (message_with "")) |}
                [(lit "choices", JList [message_with ""])]
                (message_with "") []
                eq_refl eq_refl eq_refl eq_refl eq_refl) as H.
  destruct H as [H _].
  - right. eexists _, _. repeat split; reflexivity.
  - rewrite H. reflexivity.
Defined.

(** The reply is [{"choices":[""]}]: the first choice is not an object
    and the summary is empty. *)
Lemma summarize_text_stringified_counterexample :
  is_dict (JStr []) = false
  /\ fst (summarize_text (reply_run (one_choice (JStr [])))
            (lit "Films grow.") 0%nat)
     = Ok [].
Proof. split; reflexivity. Qed.

Lemma summarize_text_nonempty_witness :
  exists s,
    fst (summarize_text no_key_run (lit "Films grow. Fast.") 0%nat) = Ok s
    /\ s <> [].
Proof.
  destruct (summarize_text_nonempty no_key_run (lit "Films grow. Fast.") 0%nat)
    as (s & Hs & Hiff); [reflexivity|].
  exists s. split; [exact Hs|].
  intros He. apply Hiff in He as [K _]. discriminate K.
Defined.

(** A text of one space with no credential, and a reply whose content is
    one space: both inputs are non-empty and both summaries are empty. *)
Lemma summarize_text_nonempty_counterexample :
  lit " " <> []
  /\ fst (summarize_text no_key_run (lit " ") 0%nat) = Ok []
  /\ fst (summarize_text (reply_run (one_choice (message_with " ")))
            (lit "Films grow.") 0%nat)
     = Ok [].
Proof. split; [discriminate|]. split; reflexivity. Qed.

Lemma search_arxiv_fetch_failure_witness :
  fetch_failed (arxiv_reply offline_run TOPIC MAX_RESULTS) = true
  /\ search_arxiv offline_run TOPIC MAX_RESULTS = Ok [].
Proof.
  split; [reflexivity|].
  apply (search_arxiv_fetch_failure offline_run TOPIC MAX_RESULTS). reflexivity.
Defined.



Lemma generate_digest_sections_witness :
  generate_digest no_key_run
    [sample_paper "P1" "One. Two."; sample_paper "P2" "Three."] 0%nat
  = (Ok (lit "# Weekly Digest: microwave plasma CVD diamond growth (2024-05-06)"
         ++ nl ++ nl
         ++ lit "### 1. P1" ++ nl
         ++ lit "**Authors:** A, B" ++ nl
         ++ lit "**Summary:** One. Two." ++ nl
         ++ lit "[Read on arXiv](http://arxiv.org/abs/1)" ++ nl ++ nl
         ++ lit "### 2. P2" ++ nl
         ++ lit "**Authors:** A, B" ++ nl
         ++ lit "**Summary:** Three." ++ nl
         ++ lit "[Read on arXiv](http://arxiv.org/abs/1)" ++ nl),
     0%nat).
Proof.
  rewrite (generate_digest_sections no_key_run
             [sample_paper "P1" "One. Two."; sample_paper "P2" "Three."] 0%nat).
  - reflexivity.
  - repeat constructor; eexists; reflexivity.
Defined.

(** The sixth of May 2024. *)
Lemma generate_digest_empty_witness :
  generate_digest no_key_run [] 5%nat
  = (Ok (lit "# Weekly Digest: microwave plasma CVD diamond growth (2024-05-06)"
         ++ nl), 5%nat).
Proof.
  rewrite (generate_digest_empty no_key_run 5%nat).
  - reflexivity.
  - unfold valid_date. simpl. lia.
Defined.

(** ** Further evaluations *)

(** Where the splitter does cut: after punctuation followed by a
    backslash and the letter s. *)
Example re_split_backslash_s :
  re_split_sentences (lit "A.\sB!\sssC?\s D.\s")
  = [lit "A."; lit "B!"; lit "C?"; lit " D."; lit ""].
Proof. reflexivity. Qed.

Example strip_tags_markup :
  strip_tags (lit "We grow <b>diamond</b>. a <> b < c > d <")
  = lit "We grow diamond. a <> b  d <".
Proof. reflexivity. Qed.

(** An author without a name: the generator of line 42 raises, outside
    the [try] of lines 29 to 34. *)
Example search_arxiv_nameless_author :
  search_arxiv (feed_run [full_entry; nameless_entry]) TOPIC MAX_RESULTS
  = Raise AttributeError.
Proof. reflexivity. Qed.

(** A reply without choices, and one whose content is a number: the
    exception is caught and the extractive summary comes back. *)
Example summarize_text_shape_errors :
  fst (summarize_text (reply_run (JDict [])) (lit "Films grow.") 0%nat)
  = Ok (lit "Films grow.")
  /\ fst (summarize_text
            (reply_run (one_choice
               (JDict [(lit "message", JDict [(lit "content", JInt 5)])])))
            (lit "Films grow.") 0%nat)
     = Ok (lit "Films grow.").
Proof. split; reflexivity. Qed.

Example generate_digest_two_papers :
  fst (generate_digest no_key_run
         [sample_paper "P1" "One. Two."; sample_paper "P2" "Three."] 0%nat)
  = Ok (lit "# Weekly Digest: microwave plasma CVD diamond growth (2024-05-06)"
        ++ nl ++ nl
        ++ lit "### 1. P1" ++ nl
        ++ lit "**Authors:** A, B" ++ nl
        ++ lit "**Summary:** One. Two." ++ nl
        ++ lit "[Read on arXiv](http://arxiv.org/abs/1)" ++ nl ++ nl
        ++ lit "### 2. P2" ++ nl
        ++ lit "**Authors:** A, B" ++ nl
        ++ lit "**Summary:** Three." ++ nl
        ++ lit "[Read on arXiv](http://arxiv.org/abs/1)" ++ nl).
Proof. reflexivity. Qed.

(** ** More on [summarize_text] *)

Lemma no_backslash_not_elem (text : str) :
  existsb (N.eqb backslash) text = false -> backslash ∉ text.
Proof.
  intros H Hin. apply list_elem_of_In in Hin.
  assert (existsb (N.eqb backslash) text = true) as Ht.
  { apply existsb_exists. exists backslash. split; [done|]. apply N.eqb_refl. }
  congruence.
Qed.

(** X1: with no credential, a text without backslash comes back whole, only
    stripped of leading and trailing white space: the pattern of line 62
    cannot match in it. *)
Theorem summarize_text_no_backslash rt text w :
  key_configured rt = false ->
  existsb (N.eqb backslash) text = false ->
  summarize_text rt text w = (Ok (strip text), w).
Proof.
  intros K Hb. rewrite summarize_text_no_key by done.
  by rewrite (extractive_summary_no_backslash _ (no_backslash_not_elem _ Hb)).
Qed.

Lemma summarize_text_no_backslash_witness :
  summarize_text no_key_run (lit "  Films grow. They shine! Why? Heat. ") 3%nat
  = (Ok (lit "Films grow. They shine! Why? Heat."), 3%nat).
Proof.
  apply (summarize_text_no_backslash no_key_run
           (lit "  Films grow. They shine! Why? Heat. ") 3%nat); reflexivity.
Defined.

(** X2: [summarize_text] never raises, and it sends exactly one POST when
    [OPENROUTER_API_KEY] is set and not empty, none when the variable is
    unset or empty. *)
Theorem summarize_text_requests rt text w :
  exists s,
    summarize_text rt text w
    = (Ok s, match OPENROUTER_KEY rt with
             | Some (_ :: _) => S w
             | _ => w
             end).
Proof.
  destruct (summarize_text_total rt text w) as [s Hs]. exists s.
  rewrite Hs. f_equal. unfold posts_per_summary, key_configured.
  destruct (OPENROUTER_KEY rt) as [[|c k]|]; lia.
Qed.

Lemma select_content_no_choice rt data :
  has_first_choice data = false -> exists e, select_content rt data = Raise e.
Proof.
  unfold has_first_choice, select_content.
  destruct data as [|b|z|f|s|l|items]; simpl; eauto.
  destruct (default (JList []) (assoc (lit "choices") items))
    as [|b|z|f|[|c s]|[|x l]|kvs]; simpl; eauto; done.
Qed.

(** X3: a reply whose body decodes but has no first choice (not an object,
    no [choices] field, an empty list, or a value that cannot be
    subscripted) is caught and gives the extractive summary. *)
Theorem summarize_text_no_choice rt text w resp data :
  key_configured rt = true ->
  post_reply rt text w = Ok resp ->
  raise_for_status resp = Ok () ->
  json_body resp = Ok data ->
  has_first_choice data = false ->
  summarize_text rt text w = (Ok (extractive_summary text), S w).
Proof.
  intros K Hp Hs Hj Hc. rewrite summarize_text_key by done.
  rewrite Hp, (read_reply_ok rt _ _ Hs Hj).
  destruct (select_content_no_choice rt data Hc) as [e ->]. done.
Qed.

Lemma summarize_text_no_choice_witness :
  summarize_text (reply_run (JDict [(lit "choices", JList [])]))
    (lit "Films grow.") 0%nat
  = (Ok (extractive_summary (lit "Films grow.")), 1%nat).
Proof.
  eapply (summarize_text_no_choice
            (reply_run (JDict [(lit "choices", JList [])]))
            (lit "Films grow.") 0%nat); reflexivity.
Defined.

(** X4: a first choice whose message, content or text has the wrong type
    makes [msg.get] or [content.strip()] raise; the exception is caught
    and the extractive summary comes back. *)
Theorem summarize_text_ill_typed rt text w resp items cs rest :
  key_configured rt = true ->
  post_reply rt text w = Ok resp ->
  raise_for_status resp = Ok () ->
  json_body resp = Ok (JDict items) ->
  assoc (lit "choices") items = Some (JList (JDict cs :: rest)) ->
  ill_typed_choice cs = true ->
  summarize_text rt text w = (Ok (extractive_summary text), S w).
Proof.
  intros K Hp Hs Hj Hc Hill. rewrite summarize_text_key by done.
  rewrite Hp, (read_reply_ok rt _ _ Hs Hj).
  by rewrite (choice_ill_typed rt _ _ _ Hc Hill).
Qed.

(** The content is a list of parts, not text. *)
Lemma summarize_text_ill_typed_witness :
  summarize_text
    (reply_run (one_choice
       (JDict [(lit "message",
                JDict [(lit "content", JList [JStr (lit "part")])])])))
    (lit "Films grow.") 0%nat
  = (Ok (extractive_summary (lit "Films grow.")), 1%nat).
Proof.
  eapply (summarize_text_ill_typed
            (reply_run (one_choice
               (JDict [(lit "message",
                        JDict [(lit "content", JList [JStr (lit "part")])])])))
            (lit "Films grow.") 0%nat); reflexivity.
Defined.

(** *** The extractive summary is no longer than the text *)

Lemma drop_while_length {A} (f : A -> bool) (l : list A) :
  (length (drop_while f l) <= length l)%nat.
Proof.
  induction l as [|x l IH]; simpl; [done|].
  destruct (f x); simpl; lia.
Qed.

Lemma strip_length s : (length (strip s) <= length s)%nat.
Proof.
  unfold strip, rstrip, lstrip. rewrite length_reverse.
  etrans; [apply drop_while_length|]. rewrite length_reverse.
  apply drop_while_length.
Qed.

Lemma join_cons_length (sep p : str) (l : list str) :
  (length (join sep (p :: l))
   <= length p + length sep + length (join sep l))%nat.
Proof.
  destruct l as [|q l]; [simpl; lia|].
  change (join sep (p :: q :: l)) with (p ++ sep ++ join sep (q :: l)).
  rewrite !length_app. lia.
Qed.

Lemma join_head_length (sep p : str) (l : list str) :
  (length p <= length (join sep (p :: l)))%nat.
Proof.
  destruct l as [|q l]; [done|].
  change (join sep (p :: q :: l)) with (p ++ sep ++ join sep (q :: l)).
  rewrite !length_app. lia.
Qed.

Lemma join_take_length (sep : str) (l : list str) : forall n,
  (length (join sep (take n l)) <= length (join sep l))%nat.
Proof.
  induction l as [|p l IH]; intros [|n]; simpl take; try (simpl; lia).
  destruct l as [|q l].
  - by rewrite take_nil.
  - destruct n as [|n]; [apply join_head_length|].
    specialize (IH (S n)). simpl take in *.
    change (join sep (p :: q :: take n l))
      with (p ++ sep ++ join sep (q :: take n l)).
    change (join sep (p :: q :: l)) with (p ++ sep ++ join sep (q :: l)).
    rewrite !length_app. lia.
Qed.

Lemma split_go_length t : forall skip prev cur,
  (length (join (lit " ") (split_go skip prev cur t))
   <= length cur + length t)%nat.
Proof.
  induction t as [|c t IH]; intros skip prev cur.
  - simpl. rewrite length_reverse. lia.
  - cbn [split_go]. destruct skip as [|k].
    + destruct (sep_len prev (c :: t)) as [[|k]|].
      * specialize (IH 0%nat (Some c) (c :: cur)). simpl length in *. lia.
      * etrans; [apply join_cons_length|].
        specialize (IH k (Some c) []). rewrite length_reverse.
        simpl length in *. lia.
      * specialize (IH 0%nat (Some c) (c :: cur)). simpl length in *. lia.
    + specialize (IH k (Some c) cur). simpl length. lia.
Qed.

Lemma extractive_summary_length text :
  (length (extractive_summary text) <= length text)%nat.
Proof.
  unfold extractive_summary, re_split_sentences.
  etrans; [apply strip_length|].
  etrans; [apply join_take_length|].
  etrans; [apply split_go_length|]. simpl. lia.
Qed.

(** X5: whenever [summarize_text] falls back on the extractive summary (no
    credential, or a failed request), what it returns has at most as
    many characters as the text it was given. *)
Theorem summarize_text_fallback_length rt text w :
  key_configured rt = false \/ request_failed (post_reply rt text w) = true ->
  exists s,
    fst (summarize_text rt text w) = Ok s /\ (length s <= length text)%nat.
Proof.
  intros H. exists (extractive_summary text).
  split; [|apply extractive_summary_length].
  destruct (key_configured rt) eqn:K.
  - destruct H as [H|H]; [done|].
    rewrite summarize_text_key by done.
    by destruct (read_reply_failed rt _ H) as [e ->].
  - by rewrite summarize_text_no_key.
Qed.

Lemma summarize_text_fallback_length_witness :
  exists s,
    fst (summarize_text timeout_run (lit "Films.\sGrow.\sFast.\sThick.") 0%nat)
    = Ok s
    /\ (length s <= length (lit "Films.\sGrow.\sFast.\sThick."))%nat.
Proof.
  apply (summarize_text_fallback_length timeout_run
           (lit "Films.\sGrow.\sFast.\sThick.") 0%nat).
  right. reflexivity.
Defined.

(** ** More on [search_arxiv] *)

Lemma names_of_nameless authors :
  forallb (fun a => bool_decide (is_Some (author_name a))) authors = false ->
  names_of authors = Raise AttributeError.
Proof.
  induction authors as [|a authors IH]; [done|].
  cbn [forallb names_of]. destruct a as [[n|]]; simpl.
  - intros H. by rewrite IH.
  - done.
Qed.

Lemma make_paper_nameless rt e :
  authors_named e = false -> make_paper rt e = Raise AttributeError.
Proof.
  intros H. unfold make_paper. by rewrite (names_of_nameless _ H).
Qed.

Lemma search_loop_nameless rt entries : forall papers,
  forallb authors_named entries = false ->
  search_loop rt entries papers = Raise AttributeError.
Proof.
  induction entries as [|e entries IH]; intros papers H; [done|].
  cbn [forallb search_loop] in *. destruct (authors_named e) eqn:He.
  - destruct (make_paper_record rt e He) as (p & -> & _). simpl.
    by apply IH.
  - by rewrite (make_paper_nameless rt e He).
Qed.

(** X6: when the fetch went through and some author of some entry has no
    name, [search_arxiv] raises [AttributeError] to its caller: line 42
    is outside the [try] of lines 29 to 34. *)
Theorem search_arxiv_nameless rt query max_results :
  forallb authors_named (fetched_entries rt query max_results) = false ->
  search_arxiv rt query max_results = Raise AttributeError.
Proof.
  intros H. rewrite search_arxiv_unfold by (by eapply nameless_encodable).
  by apply search_loop_nameless.
Qed.

Lemma search_arxiv_nameless_witness :
  search_arxiv (feed_run [full_entry; nameless_entry; titled_entry "T"])
    TOPIC MAX_RESULTS
  = Raise AttributeError.
Proof.
  apply (search_arxiv_nameless
           (feed_run [full_entry; nameless_entry; titled_entry "T"])
           TOPIC MAX_RESULTS).
  reflexivity.
Defined.

(** Whatever [search_arxiv] returns is the list of the records of the
    entries received. *)
Lemma search_arxiv_ok_records rt query max_results papers :
  search_arxiv rt query max_results = Ok papers ->
  Forall2 (record_of rt) (fetched_entries rt query max_results) papers.
Proof.
  intros H. pose proof (search_arxiv_ok_encodable rt _ _ _ H) as Hq.
  rewrite search_arxiv_unfold in H by done.
  destruct (forallb authors_named (fetched_entries rt query max_results)) eqn:E.
  - destruct (search_loop_records rt _ [] E) as (new & Hnew & Hall).
    rewrite Hnew in H. simpl in H. by injection H as <-.
  - by rewrite (search_loop_nameless rt _ [] E) in H.
Qed.

Lemma record_of_paper_record rt e (p : paper) :
  record_of rt e p -> is_paper_record p.
Proof.
  intros (Hdom & _). unfold is_paper_record.
  apply Forall_forall. intros k Hk. apply elem_of_dom.
  rewrite Hdom. by apply elem_of_list_to_set.
Qed.

(** X7: every paper [search_arxiv] returns is a PaperRecord, and its title
    neither starts nor ends with white space. *)
Theorem search_arxiv_well_formed rt query max_results (papers : list paper) :
  search_arxiv rt query max_results = Ok papers ->
  Forall (fun p : paper =>
            is_paper_record p
            /\ exists t : str,
                 p !! "title"%string = Some t /\ edge_clean t = true)
         papers.
Proof.
  intros H. apply search_arxiv_ok_records in H.
  induction H as [|e p es ps Hrec _ IH]; constructor; [|done].
  split; [by eapply record_of_paper_record|].
  destruct Hrec as (_ & Ht & _). eexists. split; [exact Ht|].
  apply strip_edge_clean.
Qed.

Lemma search_arxiv_well_formed_witness :
  exists papers : list paper,
    search_arxiv (feed_run [full_entry; titled_entry " T "]) TOPIC MAX_RESULTS
    = Ok papers
    /\ Forall (fun p : paper =>
                 is_paper_record p
                 /\ exists t : str,
                      p !! "title"%string = Some t /\ edge_clean t = true)
              papers.
Proof.
  eexists. split; [reflexivity|].
  apply (search_arxiv_well_formed (feed_run [full_entry; titled_entry " T "])
           TOPIC MAX_RESULTS).
  reflexivity.
Defined.

(** *** The tag pattern *)

Lemma drop_while_nil {A} (f : A -> bool) (l : list A) :
  forallb f l = true -> drop_while f l = [].
Proof.
  induction l as [|x l IH]; simpl; [done|].
  intros [Hx Hl]%andb_true_iff. rewrite Hx. by apply IH.
Qed.

Lemma drop_while_nil_all {A} (f : A -> bool) (l : list A) :
  drop_while f l = [] -> forallb f l = true.
Proof.
  induction l as [|x l IH]; simpl; [done|].
  destruct (f x); [|done]. intros H. by rewrite IH.
Qed.

Lemma forallb_sublist {A} (f : A -> bool) (l k : list A) :
  sublist l k -> forallb f k = true -> forallb f l = true.
Proof.
  induction 1 as [|x l k _ IH|x l k _ IH]; simpl; [done| |].
  - intros [Hx Hk]%andb_true_iff. by rewrite Hx, IH.
  - intros [_ Hk]%andb_true_iff. by apply IH.
Qed.

Lemma strip_tags_go_sublist t : forall skip, sublist (strip_tags_go skip t) t.
Proof.
  induction t as [|c t IH]; intros skip; [constructor|].
  cbn [strip_tags_go]. destruct skip as [|k].
  - destruct (tag_len (c :: t)) as [[|k]|].
    + by apply sublist_skip.
    + by apply sublist_cons.
    + by apply sublist_skip.
  - by apply sublist_cons.
Qed.

(** No tag starts at [<] when a [>] follows at once, or when no [>]
    follows at all. *)
Lemma tag_len_none c (rest : str) :
  c <> lt_sign
  \/ take_while (fun x => negb (x =? gt_sign)) rest = []
  \/ drop_while (fun x => negb (x =? gt_sign)) rest = [] ->
  tag_len (c :: rest) = None.
Proof.
  unfold tag_len. destruct (N.eqb_spec c lt_sign) as [->|Hc]; [|done].
  intros [H|[H|H]]; [done| |].
  - by rewrite H.
  - rewrite H. by destruct (take_while (fun x => negb (x =? gt_sign)) rest).
Qed.

Lemma tag_len_cases c (rest : str) :
  (exists k, tag_len (c :: rest) = Some (S k))
  \/ (tag_len (c :: rest) = None
      /\ (c <> lt_sign
          \/ take_while (fun x => negb (x =? gt_sign)) rest = []
          \/ drop_while (fun x => negb (x =? gt_sign)) rest = [])).
Proof.
  unfold tag_len. destruct (N.eqb_spec c lt_sign) as [->|Hc]; [|by right; eauto].
  destruct (take_while (fun x => negb (x =? gt_sign)) rest)
    as [|x inner] eqn:Et; [by right; eauto|].
  destruct (drop_while (fun x => negb (x =? gt_sign)) rest)
    as [|y post] eqn:Ed; [by right; eauto|].
  left. simpl. eauto.
Qed.

Lemma strip_tags_go_tag_free t : forall skip,
  has_tag (strip_tags_go skip t) = false.
Proof.
  induction t as [|c t IH]; intros skip; [done|].
  cbn [strip_tags_go]. destruct skip as [|k]; [|apply IH].
  destruct (tag_len_cases c t) as [[k ->]|[-> Hwhy]]; [apply IH|].
  cbn [has_tag]. rewrite IH, orb_false_r.
  rewrite tag_len_none; [done|].
  destruct Hwhy as [Hc|[Ht|Hd]]; [by left| |].
  - right. left. destruct t as [|x t']; [done|].
    simpl in Ht. destruct (negb (x =? gt_sign)) eqn:Ex; [done|].
    cbn [strip_tags_go].
    assert (tag_len (x :: t') = None) as ->.
    { apply tag_len_none. left. apply negb_false_iff, N.eqb_eq in Ex.
      subst x. done. }
    simpl. by rewrite Ex.
  - right. right. apply drop_while_nil.
    eapply forallb_sublist; [apply strip_tags_go_sublist|].
    by apply drop_while_nil_all.
Qed.

Lemma strip_tags_tag_free s : has_tag (strip_tags s) = false.
Proof. apply strip_tags_go_tag_free. Qed.

Lemma strip_tags_unchanged s : has_tag s = false -> strip_tags_go 0 s = s.
Proof.
  induction s as [|c s IH]; [done|].
  cbn [has_tag strip_tags_go]. intros [Hc Hs]%orb_false_iff.
  destruct (tag_len (c :: s)); [done|]. by rewrite IH.
Qed.

(** X8: the summary of every paper [search_arxiv] returns holds no complete
    tag: no position of it starts a match of the pattern of line 41. *)
Theorem search_arxiv_summary_tag_free rt query max_results
    (papers : list paper) :
  search_arxiv rt query max_results = Ok papers ->
  Forall (fun p : paper =>
            exists s : str,
              p !! "summary"%string = Some s /\ has_tag s = false)
         papers.
Proof.
  intros H. apply search_arxiv_ok_records in H.
  induction H as [|e p es ps Hrec _ IH]; constructor; [|done].
  destruct Hrec as (_ & _ & Hs & _). eexists. split; [exact Hs|].
  apply strip_tags_tag_free.
Qed.

Lemma search_arxiv_summary_tag_free_witness :
  exists papers : list paper,
    search_arxiv (feed_run [full_entry]) TOPIC MAX_RESULTS = Ok papers
    /\ Forall (fun p : paper =>
                 exists s : str,
                   p !! "summary"%string = Some s /\ has_tag s = false)
              papers.
Proof.
  eexists. split; [reflexivity|].
  apply (search_arxiv_summary_tag_free (feed_run [full_entry])
           TOPIC MAX_RESULTS).
  reflexivity.
Defined.

(** X9: removing the tags only deletes characters, in place, and a second
    pass finds nothing left to remove. *)
Theorem strip_tags_only_deletes s :
  sublist (strip_tags s) s /\ strip_tags (strip_tags s) = strip_tags s.
Proof.
  split; [apply strip_tags_go_sublist|].
  apply strip_tags_unchanged, strip_tags_tag_free.
Qed.

(** ** More on [generate_digest] *)

Section DigestMore.
Context (rt : runtime).

Lemma digest_loop_lacking i (p : paper) rest lines w :
  lacks_digest_field p = true ->
  digest_loop rt i (p :: rest) lines w
  = (Raise KeyError, (w + posts_before_key_error rt 0 p)%nat).
Proof.
  intros H. unfold lacks_digest_field in H.
  cbn [digest_loop]. unfold posts_before_key_error, mbind, io_bind, lift, py_getitem.
  destruct (p !! "summary"%string) as [a|] eqn:Ea.
  - destruct (summarize_text_total rt a w) as [s Hs]. rewrite Hs.
    replace (w + posts_per_summary rt * 1)%nat
      with (w + posts_per_summary rt)%nat by lia.
    destruct (p !! "title"%string) as [t|] eqn:Et; [|done].
    destruct (p !! "authors"%string) as [au|] eqn:Eau; [|done].
    destruct (p !! "link"%string) as [l|] eqn:El; [|done].
    exfalso. rewrite !orb_true_iff in H.
    destruct H as [[[H|H]|H]|H]; apply bool_decide_eq_true in H; congruence.
  - f_equal. lia.
Qed.

Lemma digest_loop_key_error pre (p : paper) rest : forall i lines w,
  Forall is_paper_record pre ->
  lacks_digest_field p = true ->
  digest_loop rt i (pre ++ p :: rest) lines w
  = (Raise KeyError, (w + posts_before_key_error rt (length pre) p)%nat).
Proof.
  induction pre as [|q pre IH]; intros i lines w Hall Hp.
  - by apply digest_loop_lacking.
  - apply Forall_cons in Hall as [Hq Hpre].
    destruct (paper_record_fields q Hq)
      as (title & abs_text & link & authors & Ht & Ha & Hl & Hau).
    destruct (summarize_text_total rt abs_text w) as [summary Hs].
    simpl app.
    rewrite (digest_loop_cons rt _ _ _ _ _ _ _ _ _ _ _ Ht Ha Hl Hau Hs).
    rewrite IH by done. f_equal.
    unfold posts_before_key_error. simpl length.
    destruct (p !! "summary"%string); lia.
Qed.

Lemma digest_loop_same_fields (ps qs : list paper) :
  Forall2 same_digest_fields ps qs ->
  forall i lines w, digest_loop rt i ps lines w = digest_loop rt i qs lines w.
Proof.
  induction 1 as [|p q ps qs (Ht & Ha & Hau & Hl) _ IH]; intros i lines w;
    [done|].
  cbn [digest_loop]. unfold mbind, io_bind, lift, py_getitem.
  rewrite Ht, Ha, Hau, Hl.
  destruct (q !! "summary"%string) as [a|]; [|done].
  destruct (summarize_text rt a w) as [[s|e] w']; [|done].
  destruct (q !! "title"%string) as [t|]; [|done].
  destruct (q !! "authors"%string) as [au|]; [|done].
  destruct (q !! "link"%string) as [l|]; [|done].
  apply IH.
Qed.

Lemma join_cons_app (sep p : str) (l : list str) :
  exists body, join sep (p :: l) = p ++ body.
Proof.
  destruct l as [|q l].
  - exists []. simpl. by rewrite app_nil_r.
  - by exists (sep ++ join sep (q :: l)).
Qed.

Lemma join_last (sep : str) (l : list str) (x : str) :
  last l = Some x -> x <> [] -> last (join sep l) = last x.
Proof.
  induction l as [|p l IH]; [done|].
  destruct l as [|q l].
  - simpl. by intros [= ->].
  - intros Hl Hx.
    change (join sep (p :: q :: l)) with (p ++ sep ++ join sep (q :: l)).
    assert (last (join sep (q :: l)) = last x) as Hj by (by apply IH).
    destruct (join sep (q :: l)) as [|c r] eqn:Ej.
    + destruct x as [|c x]; [done|]. rewrite last_cons in Hj.
      simpl in Hj. by destruct (last x).
    + rewrite !app_assoc, <- Hj. apply last_app_cons.
Qed.

End DigestMore.

(** X10: when the first paper that is not a complete record lacks one of the
    four fields the digest reads, [generate_digest] raises [KeyError] and
    returns no text.  The requests for the papers before it have been
    made, and also the one for the paper itself unless the missing field
    is the summary. *)
Theorem generate_digest_key_error rt (pre : list paper) (p : paper) rest w :
  Forall is_paper_record pre ->
  lacks_digest_field p = true ->
  generate_digest rt (pre ++ p :: rest) w
  = (Raise KeyError, (w + posts_before_key_error rt (length pre) p)%nat).
Proof.
  intros Hpre Hp. unfold generate_digest, mbind, io_bind.
  by rewrite (digest_loop_key_error rt pre p rest _ _ _ Hpre Hp).
Qed.

Lemma generate_digest_key_error_witness :
  generate_digest timeout_run
    ([sample_paper "P1" "One."] ++ paper_without_summary
       :: [sample_paper "P3" "Three."]) 0%nat
  = (Raise KeyError, 1%nat).
Proof.
  apply (generate_digest_key_error timeout_run
           [sample_paper "P1" "One."] paper_without_summary
           [sample_paper "P3" "Three."] 0%nat).
  - repeat constructor; eexists; reflexivity.
  - reflexivity.
Defined.

(** X11: the digest reads only the title, summary, authors and link of a
    paper: two lists of papers that agree on these four fields, paper by
    paper, give the same digest, the same requests and the same
    exception if any. *)
Theorem generate_digest_same_fields rt (ps qs : list paper) w :
  Forall2 same_digest_fields ps qs ->
  generate_digest rt ps w = generate_digest rt qs w.
Proof.
  intros H. unfold generate_digest, mbind, io_bind.
  by rewrite (digest_loop_same_fields rt ps qs H).
Qed.

Lemma generate_digest_same_fields_witness :
  generate_digest no_key_run [sample_paper "P1" "One."; short_paper "P2" "Two."]
    0%nat
  = generate_digest no_key_run
      [short_paper "P1" "One."; sample_paper "P2" "Two."] 0%nat.
Proof.
  apply (generate_digest_same_fields no_key_run
           [sample_paper "P1" "One."; short_paper "P2" "Two."]
           [short_paper "P1" "One."; sample_paper "P2" "Two."] 0%nat).
  repeat constructor.
Defined.

(** X12: the digest of any list of PaperRecords starts with the title line
    and ends with a newline. *)
Theorem generate_digest_frame rt (papers : list paper) w :
  Forall is_paper_record papers ->
  exists doc body,
    fst (generate_digest rt papers w) = Ok doc
    /\ doc = title_line rt ++ body
    /\ last doc = Some 10.
Proof.
  intros Hall.
  destruct (digest_loop_sections rt papers 1%Z [title_line rt] w Hall)
    as (lines & Hrun & Hlen & Hsec).
  destruct (join_cons_app nl (title_line rt) lines) as [body Hbody].
  exists (join nl (title_line rt :: lines)), body.
  split; [|split; [done|]].
  - unfold generate_digest, mbind, io_bind. by rewrite Hrun.
  - destruct (decide (papers = [])) as [->|Hne].
    + destruct lines; [|done]. cbn [join]. unfold title_line.
      rewrite !app_assoc. unfold nl. apply last_snoc.
    + assert (exists q, papers !! (length papers - 1)%nat = Some q) as [q Hq].
      { apply lookup_lt_is_Some. destruct papers; [done|]. simpl. lia. }
      destruct (Hsec _ _ Hq)
        as (t & a & l & au & s & _ & _ & _ & _ & _ & _ & _ & _ & L3).
      assert (last (title_line rt :: lines)
              = Some (lit "[Read on arXiv](" ++ l ++ lit ")" ++ nl)) as Hlast.
      { rewrite last_lookup. cbn [length Nat.pred].
        replace (length lines) with (S (4 * (length papers - 1) + 3))%nat.
        - exact L3.
        - destruct papers; [done|]. cbn [length] in *. unfold str in *. lia. }
      rewrite (join_last _ _ _ Hlast).
      * rewrite !app_assoc. unfold nl. apply last_snoc.
      * intros Hnil. apply (f_equal length) in Hnil.
        rewrite !length_app in Hnil. simpl in Hnil. lia.
Qed.

Lemma generate_digest_frame_witness :
  exists doc body,
    fst (generate_digest no_key_run
           [sample_paper "P1" "One."; sample_paper "P2" "Two."] 0%nat)
    = Ok doc
    /\ doc = title_line no_key_run ++ body
    /\ last doc = Some 10.
Proof.
  apply (generate_digest_frame no_key_run
           [sample_paper "P1" "One."; sample_paper "P2" "Two."] 0%nat).
  repeat constructor; eexists; reflexivity.
Defined.

(** ** The run as a whole *)

Lemma generate_digest_records rt (papers : list paper) w :
  Forall is_paper_record papers ->
  exists doc,
    generate_digest rt papers w
    = (Ok doc, (w + posts_per_summary rt * length papers)%nat).
Proof.
  intros Hall.
  destruct (digest_loop_sections rt papers 1%Z [title_line rt] w Hall)
    as (lines & Hrun & _).
  eexists. unfold generate_digest, mbind, io_bind. by rewrite Hrun.
Qed.

Lemma search_arxiv_records_ok rt query max_results (papers : list paper) :
  search_arxiv rt query max_results = Ok papers ->
  Forall is_paper_record papers
  /\ length papers = length (fetched_entries rt query max_results).
Proof.
  intros H. apply search_arxiv_ok_records in H. split.
  - induction H as [|e p es ps Hrec _ IH]; constructor; [|done].
    by eapply record_of_paper_record.
  - symmetry. by eapply Forall2_length.
Qed.

Lemma encodable_TOPIC : encodable TOPIC = true.
Proof. reflexivity. Qed.

Lemma search_arxiv_raises rt query max_results e :
  encodable query = true ->
  search_arxiv rt query max_results = Raise e -> e = AttributeError.
Proof.
  intros Hq H. rewrite search_arxiv_unfold in H by done.
  destruct (forallb authors_named (fetched_entries rt query max_results)) eqn:E.
  - destruct (search_loop_records rt _ [] E) as (new & Hnew & _).
    by rewrite Hnew in H.
  - rewrite (search_loop_nameless rt _ [] E) in H. by injection H.
Qed.

(** X13: the two stages compose: on whatever [search_arxiv] returns,
    [generate_digest] raises nothing and sends one request per paper
    when a key is configured. *)
Theorem generate_digest_of_fetched rt query max_results (papers : list paper) w :
  search_arxiv rt query max_results = Ok papers ->
  exists doc,
    generate_digest rt papers w
    = (Ok doc,
       (w + posts_per_summary rt
            * length (fetched_entries rt query max_results))%nat).
Proof.
  intros H. apply search_arxiv_records_ok in H as [Hall <-].
  by apply generate_digest_records.
Qed.

Lemma generate_digest_of_fetched_witness :
  exists papers doc,
    search_arxiv (feed_run [full_entry; titled_entry "T"]) TOPIC MAX_RESULTS
    = Ok papers
    /\ generate_digest (feed_run [full_entry; titled_entry "T"]) papers 0%nat
       = (Ok doc, 0%nat).
Proof.
  eexists.
  destruct (generate_digest_of_fetched
              (feed_run [full_entry; titled_entry "T"]) TOPIC MAX_RESULTS
              _ 0%nat eq_refl) as [doc Hdoc].
  exists doc. split; [reflexivity|exact Hdoc].
Defined.

(** X14: when the fetch fails and the host calls succeed, the run still ends
    normally: it creates the directory, writes a digest that is the
    title line alone and prints the path, without any POST. *)
Theorem main_run_offline rt h w :
  (forall a, succeeds h a = true) ->
  fetch_failed (arxiv_reply rt TOPIC MAX_RESULTS) = true ->
  main_run rt h w
  = (Done, w,
     [MakeDirs OUTPUT_DIR;
      WriteFile (OUTPUT_DIR ++ lit "/digest_" ++ isoformat (date_at_write h)
                 ++ lit ".md")
                (title_line rt);
      Print (lit "Digest saved to " ++ OUTPUT_DIR ++ lit "/digest_"
             ++ isoformat (date_at_write h) ++ lit ".md")]).
Proof.
  intros Hh Hf. unfold main_run.
  rewrite search_arxiv_unfold by done.
  rewrite (fetched_entries_failed rt _ _ Hf).
  cbn [search_loop].
  change (generate_digest rt [] w) with (Ok (title_line rt), w).
  by rewrite !Hh.
Qed.

Lemma main_run_offline_witness :
  main_run offline_run obliging_host 0%nat
  = (Done, 0%nat,
     [MakeDirs (lit "digests");
      WriteFile (lit "digests/digest_2024-05-07.md")
        (lit "# Weekly Digest: microwave plasma CVD diamond growth (2024-05-06)"
         ++ nl);
      Print (lit "Digest saved to digests/digest_2024-05-07.md")]).
Proof.
  apply (main_run_offline offline_run obliging_host 0%nat).
  - intros a. reflexivity.
  - reflexivity.
Defined.

(** X15: when every host call succeeds and every author in the feed has a
    name, the run ends normally after exactly three host calls: the
    directory, one file named after the date read at that moment, whose
    content is the digest of the papers fetched, and the printed path.
    It sent one POST per entry of the feed when a key is configured. *)
Theorem main_run_complete rt h w :
  (forall a, succeeds h a = true) ->
  forallb authors_named (fetched_entries rt TOPIC MAX_RESULTS) = true ->
  exists papers doc,
    search_arxiv rt TOPIC MAX_RESULTS = Ok papers
    /\ fst (generate_digest rt papers w) = Ok doc
    /\ main_run rt h w
       = (Done,
          (w + posts_per_summary rt
               * length (fetched_entries rt TOPIC MAX_RESULTS))%nat,
          [MakeDirs OUTPUT_DIR;
           WriteFile (OUTPUT_DIR ++ lit "/digest_"
                      ++ isoformat (date_at_write h) ++ lit ".md") doc;
           Print (lit "Digest saved to " ++ OUTPUT_DIR ++ lit "/digest_"
                  ++ isoformat (date_at_write h) ++ lit ".md")]).
Proof.
  intros Hh Hnamed.
  destruct (search_loop_records rt _ [] Hnamed) as (papers & Hrun & Hall).
  assert (search_arxiv rt TOPIC MAX_RESULTS = Ok papers) as Hs
    by (by rewrite search_arxiv_unfold).
  destruct (search_arxiv_records_ok rt _ _ _ Hs) as [Hrec Hlen].
  destruct (generate_digest_records rt papers w Hrec) as [doc Hdoc].
  exists papers, doc. split; [done|]. split; [by rewrite Hdoc|].
  unfold main_run. rewrite Hs, Hdoc, !Hh. simpl negb. cbv iota.
  by rewrite Hlen.
Qed.

Lemma main_run_complete_witness :
  exists papers doc,
    search_arxiv (feed_run [full_entry]) TOPIC MAX_RESULTS = Ok papers
    /\ fst (generate_digest (feed_run [full_entry]) papers 0%nat) = Ok doc
    /\ main_run (feed_run [full_entry]) obliging_host 0%nat
       = (Done, 0%nat,
          [MakeDirs OUTPUT_DIR;
           WriteFile (OUTPUT_DIR ++ lit "/digest_"
                      ++ isoformat (date_at_write obliging_host) ++ lit ".md")
                     doc;
           Print (lit "Digest saved to " ++ OUTPUT_DIR ++ lit "/digest_"
                  ++ isoformat (date_at_write obliging_host) ++ lit ".md")]).
Proof.
  apply (main_run_complete (feed_run [full_entry]) obliging_host 0%nat).
  - intros a. reflexivity.
  - reflexivity.
Defined.

(** X16: the only exception of the script's own calls that the run lets
    escape is the [AttributeError] of an author without a name; it
    escapes after the directory was created, before any POST and before
    any file is written. *)
Theorem main_run_escape rt h w e w' trace :
  main_run rt h w = (Failed e, w', trace) ->
  e = AttributeError /\ w' = w /\ trace = [MakeDirs OUTPUT_DIR].
Proof.
  unfold main_run.
  destruct (succeeds h (MakeDirs OUTPUT_DIR)); simpl negb; cbv iota; [|done].
  destruct (search_arxiv rt TOPIC MAX_RESULTS) as [papers|e0] eqn:Hs.
  - destruct (search_arxiv_records_ok rt _ _ _ Hs) as [Hrec _].
    destruct (generate_digest_records rt papers w Hrec) as [doc ->].
    destruct (succeeds h (WriteFile _ _)); simpl negb; cbv iota; [|done].
    by destruct (succeeds h (Print _)).
  - intros [= <- <- <-].
    by rewrite (search_arxiv_raises rt _ _ _ encodable_TOPIC Hs).
Qed.

Lemma main_run_escape_witness :
  main_run (feed_run [full_entry; nameless_entry]) obliging_host 0%nat
  = (Failed AttributeError, 0%nat, [MakeDirs OUTPUT_DIR])
  /\ AttributeError = AttributeError /\ 0%nat = 0%nat
  /\ [MakeDirs OUTPUT_DIR] = [MakeDirs OUTPUT_DIR].
Proof.
  split; [reflexivity|].
  apply (main_run_escape (feed_run [full_entry; nameless_entry])
           obliging_host 0%nat AttributeError 0%nat [MakeDirs OUTPUT_DIR]).
  reflexivity.
Defined.

(** X17: a topic that UTF-8 cannot encode (it holds a lone surrogate)
    makes [search_arxiv] raise [UnicodeEncodeError] to its caller before
    any request is made, whatever the network would have answered:
    [quote_plus] of line 26 is outside the [try] of lines 29 to 34. *)
Theorem search_arxiv_unencodable_topic rt query max_results :
  encodable query = false ->
  search_arxiv rt query max_results = Raise UnicodeEncodeError
  /\ arxiv_reply rt query max_results = None.
Proof.
  intros H. unfold search_arxiv, arxiv_reply, py_quote_plus.
  by rewrite H.
Qed.

(** The topic is the single code point U+D800, on a host without
    network. *)
Lemma search_arxiv_unencodable_topic_witness :
  search_arxiv offline_run [55296] MAX_RESULTS = Raise UnicodeEncodeError
  /\ arxiv_reply offline_run [55296] MAX_RESULTS = None.
Proof.
  apply (search_arxiv_unencodable_topic offline_run [55296] MAX_RESULTS).
  reflexivity.
Defined.
